(** * Timekeeper: a shallow embedding of [script.js]

    The client-side logic of the Timekeeper demo application, embedded
    function by function, and the properties its specification states about
    it.  JavaScript strings are modelled as [string] (one [ascii] per code
    unit), JavaScript integers as [Z], the other numbers as binary64 floats. *)

From Stdlib Require Import ZArith Ascii String List Lia Bool Floats Uint63.
From stdpp Require Import base option list strings sorting gmap.

Local Open Scope string_scope.
Local Open Scope Z_scope.

(** ** JavaScript string and number primitives *)

Module JS.

(** [Number.MAX_SAFE_INTEGER]: up to this bound the arithmetic of IEEE
    doubles on integers is the arithmetic of [Z]. *)
Definition MAX_SAFE_INTEGER : Z := 2 ^ 53 - 1.

Definition safe (n : Z) : option Z :=
  if (Z.abs n <=? MAX_SAFE_INTEGER)%Z then Some n else None.

(** The code units the ECMAScript grammar calls WhiteSpace or
    LineTerminator, as far as one [ascii] can hold them: TAB, LF, VT, FF,
    CR, SP and NBSP. *)
Definition isWhiteSpace (c : ascii) : bool :=
  let n := N_of_ascii c in
  ((9 <=? n) && (n <=? 13) || (n =? 32) || (n =? 160))%N.

Definition isDigit (c : ascii) : bool :=
  let n := N_of_ascii c in ((48 <=? n) && (n <=? 57))%N.

Definition digitValue (c : ascii) : Z := Z.of_N (N_of_ascii c) - 48.

Fixpoint trimStart (s : string) : string :=
  match s with
  | String c s' => if isWhiteSpace c then trimStart s' else s
  | EmptyString => EmptyString
  end.

Definition trimEnd (s : string) : string :=
  String.rev (trimStart (String.rev s)).

(** [String.prototype.trim] *)
Definition trim (s : string) : string := trimEnd (trimStart s).

Fixpoint allDigits (s : string) : bool :=
  match s with
  | String c s' => isDigit c && allDigits s'
  | EmptyString => true
  end.

(** Value of a string of decimal digits, most significant first. *)
Fixpoint decimalValue (acc : Z) (s : string) : Z :=
  match s with
  | String c s' => decimalValue (10 * acc + digitValue c) s'
  | EmptyString => acc
  end.

(** [Number(s)] on the strings this development needs: after trimming
    white space, the empty string is 0 and a string of decimal digits is
    its value.  [None] stands for every other outcome: NaN, and the
    literals that are not modelled (signs, fractions, exponents, radix
    prefixes, Infinity, and digit strings beyond the safe integers, which
    a double rounds). *)
Definition Number (s : string) : option Z :=
  let t := trim s in
  if allDigits t then safe (decimalValue 0 t) else None.

(** [s.split(sep)] for a separator of one code unit: the pieces between
    the separators, [""] included; never the empty list. *)
Fixpoint split (sep : ascii) (s : string) : list string :=
  match s with
  | EmptyString => [EmptyString]
  | String c s' =>
      if Ascii.eqb c sep then EmptyString :: split sep s'
      else match split sep s' with
           | p :: ps => String c p :: ps
           | [] => [String c EmptyString]
           end
  end.

Definition digitChar (d : Z) : ascii := ascii_of_N (Z.to_N (48 + d)).

(** Decimal digits of a non-negative integer; [fuel] bounds the number of
    digits. *)
Fixpoint digits (fuel : nat) (n : Z) (acc : string) : string :=
  match fuel with
  | O => acc
  | S fuel' =>
      let acc' := String (digitChar (n mod 10)) acc in
      if (n <? 10)%Z then acc' else digits fuel' (n / 10) acc'
  end.

(** [String(n)] for an integer [n] (below 10^21 in magnitude, where
    JavaScript prints all the digits). *)
Definition String_ (n : Z) : string :=
  if (n <? 0)%Z then String "-" (digits 22 (- n) EmptyString)
  else digits 22 n EmptyString.

Fixpoint repeatChar (n : nat) (c : ascii) : string :=
  match n with
  | O => EmptyString
  | S n' => String c (repeatChar n' c)
  end.

(** [s.padStart(len, c)] for a filler of one code unit. *)
Definition padStart (len : nat) (c : ascii) (s : string) : string :=
  repeatChar (len - String.length s) c ++ s.

(** [s.slice(0, n)] *)
Fixpoint slice0 (n : nat) (s : string) : string :=
  match n, s with
  | S n', String c s' => String c (slice0 n' s')
  | _, _ => EmptyString
  end.

End JS.

(** ** Clock strings and worked minutes *)

(** [timeToMinutes]: [timeStr.split(':').map(Number)], of which the first two
    elements are [h] and [m]; a missing element is [undefined] and makes the
    sum NaN. *)
Definition timeToMinutes (timeStr : string) : option Z :=
  match map JS.Number (JS.split ":" timeStr) with
  | Some h :: Some m :: _ => JS.safe (h * 60 + m)
  | _ => None
  end.

(** [minutesToTime]: [Math.floor(mins / 60)] and the remainder [mins % 60],
    which has the sign of [mins]. *)
Definition minutesToTime (mins : Z) : string :=
  let h := mins / 60 in
  let m := Z.rem mins 60 in
  JS.padStart 2 "0" (JS.String_ h) ++ ":" ++ JS.padStart 2 "0" (JS.String_ m).

(** The arithmetic of [computeWorkedMinutes] on the four minute offsets. *)
Definition workedMinutes (ss se ai ao : Z) : Z :=
  let deduction := if (ai >? ss)%Z then ai - ss else 0 in
  let effectiveEnd := Z.min ao se in
  let minutes := effectiveEnd - ss - deduction in
  if (minutes <? 0)%Z then 0 else minutes.

Definition computeWorkedMinutes
    (scheduledStart scheduledEnd actualIn actualOut : string) : option Z :=
  ss ← timeToMinutes scheduledStart;
  se ← timeToMinutes scheduledEnd;
  ai ← timeToMinutes actualIn;
  ao ← timeToMinutes actualOut;
  Some (workedMinutes ss se ai ao).


(** ** Dates: the time-value arithmetic of ECMAScript

    A valid [Date] is its time value, the milliseconds since the epoch in
    UTC.  The functions below are those of the language specification
    (section "Time Values and Time Range"), over [Z]. *)

Module JSDate.

Definition msPerDay : Z := 86400000.
Definition msPerHour : Z := 3600000.
Definition msPerMinute : Z := 60000.
Definition msPerSecond : Z := 1000.

Definition Day (t : Z) : Z := t / msPerDay.
Definition TimeWithinDay (t : Z) : Z := t mod msPerDay.

Definition isLeapYear (y : Z) : bool :=
  if negb (y mod 4 =? 0) then false
  else if negb (y mod 100 =? 0) then true
  else if negb (y mod 400 =? 0) then false
  else true.

Definition DaysInYear (y : Z) : Z := if isLeapYear y then 366 else 365.

Definition DayFromYear (y : Z) : Z :=
  365 * (y - 1970) + (y - 1969) / 4 - (y - 1901) / 100 + (y - 1601) / 400.

(** The largest [y] with [DayFromYear y <= d]: an estimate from the mean
    length of a year, corrected by one where it is off. *)
Definition YearFromDay (d : Z) : Z :=
  let y := 1970 + (d * 400) / 146097 in
  if DayFromYear y >? d then y - 1
  else if DayFromYear (y + 1) <=? d then y + 1
  else y.

Definition YearFromTime (t : Z) : Z := YearFromDay (Day t).

Definition leapDays (y : Z) : Z := if isLeapYear y then 1 else 0.

(** Day number within the year on which month [m] (0 to 11) begins. *)
Definition monthStart (leap m : Z) : Z :=
  match m with
  | 0 => 0
  | 1 => 31
  | 2 => 59 + leap
  | 3 => 90 + leap
  | 4 => 120 + leap
  | 5 => 151 + leap
  | 6 => 181 + leap
  | 7 => 212 + leap
  | 8 => 243 + leap
  | 9 => 273 + leap
  | 10 => 304 + leap
  | 11 => 334 + leap
  | _ => 365 + leap
  end.

Definition DayWithinYear (d : Z) : Z := d - DayFromYear (YearFromDay d).

Definition MonthFromDay (d : Z) : Z :=
  let leap := leapDays (YearFromDay d) in
  let w := DayWithinYear d in
  if w <? 31 then 0
  else if w <? 59 + leap then 1
  else if w <? 90 + leap then 2
  else if w <? 120 + leap then 3
  else if w <? 151 + leap then 4
  else if w <? 181 + leap then 5
  else if w <? 212 + leap then 6
  else if w <? 243 + leap then 7
  else if w <? 273 + leap then 8
  else if w <? 304 + leap then 9
  else if w <? 334 + leap then 10
  else 11.

Definition DateFromDay (d : Z) : Z :=
  DayWithinYear d - monthStart (leapDays (YearFromDay d)) (MonthFromDay d) + 1.

Definition MonthFromTime (t : Z) : Z := MonthFromDay (Day t).
Definition DateFromTime (t : Z) : Z := DateFromDay (Day t).
Definition HourFromTime (t : Z) : Z := (t / msPerHour) mod 24.
Definition MinFromTime (t : Z) : Z := (t / msPerMinute) mod 60.
Definition SecFromTime (t : Z) : Z := (t / msPerSecond) mod 60.
Definition msFromTime (t : Z) : Z := t mod msPerSecond.

(** [MakeDay]: the day number of the first of the month, plus [date - 1];
    months outside 0..11 carry into the year. *)
Definition MakeDay (year month date : Z) : Z :=
  let ym := year + month / 12 in
  let mn := month mod 12 in
  DayFromYear ym + monthStart (leapDays ym) mn + date - 1.

Definition MakeDate (day time : Z) : Z := day * msPerDay + time.

(** [TimeClip]: time values beyond 8.64e15 ms are NaN, the Invalid Date. *)
Definition TimeClip (t : Z) : option Z :=
  if Z.abs t <=? 8640000000000000 then Some t else None.

Section Zone.
(** The local zone, taken as a fixed offset in milliseconds, positive
    east of Greenwich (no daylight-saving transitions on the instants
    considered). *)
Variable LocalTZA : Z.

Definition LocalTime (t : Z) : Z := t + LocalTZA.
Definition UTC (t : Z) : Z := t - LocalTZA.

(** [new Date(year, month, date)]: local midnight of the day; years 0
    to 99 mean 1900 to 1999. *)
Definition newDate (year month date : Z) : option Z :=
  let yr := if (0 <=? year) && (year <=? 99) then 1900 + year else year in
  TimeClip (UTC (MakeDate (MakeDay yr month date) 0)).

Definition getFullYear (t : Z) : Z := YearFromTime (LocalTime t).
Definition getMonth (t : Z) : Z := MonthFromTime (LocalTime t).
Definition getDate (t : Z) : Z := DateFromTime (LocalTime t).

(** The first five code units of [toTimeString()]: local ["HH:MM"]. *)
Definition toTimeString5 (t : Z) : string :=
  JS.padStart 2 "0" (JS.String_ (HourFromTime (LocalTime t))) ++ ":" ++
  JS.padStart 2 "0" (JS.String_ (MinFromTime (LocalTime t))).
End Zone.

(** The year of an ISO string: four digits from 0 to 9999, otherwise a
    sign and six digits. *)
Definition isoYear (y : Z) : string :=
  if (0 <=? y) && (y <=? 9999) then JS.padStart 4 "0" (JS.String_ y)
  else String (if (y <? 0)%Z then "-"%char else "+"%char)
              (JS.padStart 6 "0" (JS.String_ (Z.abs y))).

Definition pad2 (n : Z) : string := JS.padStart 2 "0" (JS.String_ n).

(** [toISOString()]: the UTC fields of the time value. *)
Definition toISOString (t : Z) : string :=
  isoYear (YearFromTime t) ++ "-" ++ pad2 (MonthFromTime t + 1) ++ "-" ++
  pad2 (DateFromTime t) ++ "T" ++ pad2 (HourFromTime t) ++ ":" ++
  pad2 (MinFromTime t) ++ ":" ++ pad2 (SecFromTime t) ++ "." ++
  JS.padStart 3 "0" (JS.String_ (msFromTime t)) ++ "Z".

(** [d.toISOString().slice(0, 10)] *)
Definition isoDate (t : Z) : string := JS.slice0 10 (toISOString t).

End JSDate.

(** ** Pay periods *)

(** [arr.slice().sort((a, b) => a - b)]: the ascending numeric sort. *)
Definition sortNumeric (l : list Z) : list Z := merge_sort Z.le l.

(** The loop of [getPayPeriodStart]: the last start day not after [day]. *)
Definition chooseDay (day : Z) (startDays : list Z) : option Z :=
  fold_left (fun chosen s => if day >=? s then Some s else chosen)
            startDays None.

(** [getPayPeriodStart(dateObj)], the stored [paySettings.startDays] made a
    parameter.  [None] is the RangeError of [toISOString] on an Invalid Date
    (an empty [startDays], or a date beyond the time range). *)
Definition getPayPeriodStart (LocalTZA : Z) (settingsStartDays : list Z)
    (dateObj : Z) : option string :=
  let startDays := sortNumeric settingsStartDays in
  let day := JSDate.getDate LocalTZA dateObj in
  let month := JSDate.getMonth LocalTZA dateObj in
  let year := JSDate.getFullYear LocalTZA dateObj in
  match chooseDay day startDays with
  | None =>
      let prevMonth := Z.rem (month - 1 + 12) 12 in
      let prevYear := if month =? 0 then year - 1 else year in
      lastDay ← last startDays;
      lastOfPrev ← JSDate.newDate LocalTZA prevYear (prevMonth + 1) 0;
      let daysInPrevMonth := JSDate.getDate LocalTZA lastOfPrev in
      startDate ← JSDate.newDate LocalTZA prevYear prevMonth
                    (Z.min lastDay daysInPrevMonth);
      Some (JSDate.isoDate startDate)
  | Some chosenDay =>
      lastOfMonth ← JSDate.newDate LocalTZA year (month + 1) 0;
      let daysInMonth := JSDate.getDate LocalTZA lastOfMonth in
      let actualDay := Z.min chosenDay daysInMonth in
      startDate ← JSDate.newDate LocalTZA year month actualDay;
      Some (JSDate.isoDate startDate)
  end.

(** The time value of 12:00 UTC on a civil day, for examples. *)
Definition noonUTC (y m d : Z) : Z :=
  JSDate.MakeDate (JSDate.MakeDay y (m - 1) d) (12 * JSDate.msPerHour).

(** ** Numbers that are not integers *)

Module JSNumber.

(** The double of an integer; exact up to [JS.MAX_SAFE_INTEGER]. *)
Definition ofZ (z : Z) : float :=
  if z <? 0 then PrimFloat.opp (PrimFloat.of_uint63 (Uint63.of_Z (- z)))
  else PrimFloat.of_uint63 (Uint63.of_Z z).

(** The numbers that count as false: 0, -0 and NaN. *)
Definition isFalsy (x : float) : bool :=
  PrimFloat.is_zero x || PrimFloat.is_nan x.

(** The digits of [n] hundredths, with the point before the last two. *)
Definition fixed2 (n : Z) : string :=
  let ds := JS.padStart 3 "0" (JS.digits 24 n EmptyString) in
  let k := (String.length ds - 2)%nat in
  substring 0 k ds ++ "." ++ substring k 2 ds.

(** [x.toFixed(2)]: the integer [n] with [n / 100] nearest to the exact
    value of [x], the larger one on a tie.  [None] for magnitudes from
    10^21 on, which are printed in exponent notation (not modelled). *)
Definition toFixed2 (x : float) : option string :=
  match Prim2SF x with
  | S754_nan => Some "NaN"
  | S754_infinity s => Some (if s then "-Infinity" else "Infinity")
  | S754_zero _ => Some "0.00"
  | S754_finite s m e =>
      let big := if 0 <=? e then 10 ^ 21 <=? Z.pos m * 2 ^ e
                 else 10 ^ 21 * 2 ^ (- e) <=? Z.pos m in
      if big then None
      else
        let n := if 0 <=? e then Z.pos m * 100 * 2 ^ e
                 else (2 * (Z.pos m * 100) + 2 ^ (- e)) / (2 * 2 ^ (- e)) in
        Some ((if s then "-" else "") ++ fixed2 n)
  end.

Definition isHexDigit (c : ascii) : bool :=
  let n := N_of_ascii c in
  (JS.isDigit c || (65 <=? n) && (n <=? 70) || (97 <=? n) && (n <=? 102))%N.

Definition hexValue (c : ascii) : Z :=
  let n := Z.of_N (N_of_ascii c) in
  if JS.isDigit c then n - 48 else if n <=? 70 then n - 55 else n - 87.

(** The longest prefix of digits of the radix, as a value; [None] when
    there is no digit. *)
Fixpoint digitPrefix (radix : Z) (acc : option Z) (s : string) : option Z :=
  match s with
  | String c s' =>
      let ok := if radix =? 16 then isHexDigit c else JS.isDigit c in
      if ok then digitPrefix radix (Some (radix * default 0 acc + hexValue c)) s'
      else acc
  | EmptyString => acc
  end.

(** [parseInt(s)] without a radix: leading white space, a sign, [0x] or
    [0X] for radix 16, then the longest prefix of digits; [None] is NaN.
    The value is exact here, where a double rounds beyond the safe
    integers. *)
Definition parseInt (s : string) : option Z :=
  let s1 := JS.trimStart s in
  let '(sign, s2) :=
    match s1 with
    | String "-" r => (-1, r)
    | String "+" r => (1, r)
    | _ => (1, s1)
    end in
  let '(radix, s3) :=
    match s2 with
    | String "0" (String "x" r) => (16, r)
    | String "0" (String "X" r) => (16, r)
    | _ => (10, s2)
    end in
  (fun v => sign * v) <$> digitPrefix radix None s3.

End JSNumber.

(** ** Ordinary objects used as maps

    The own enumerable properties of an object created by [{}] or by
    [JSON.parse], in creation order; what it inherits from
    [Object.prototype] is the same for all of them. *)

Module JSObject.

Definition t (V : Type) : Type := list (string * V).

(** The property names of [Object.prototype]. *)
Definition prototypeNames : list string :=
  [ "constructor"; "hasOwnProperty"; "isPrototypeOf"; "propertyIsEnumerable";
    "toLocaleString"; "toString"; "valueOf"; "__defineGetter__";
    "__defineSetter__"; "__lookupGetter__"; "__lookupSetter__"; "__proto__" ].

Definition inPrototype (k : string) : bool :=
  bool_decide (k ∈ prototypeNames).

(** The result of [o[k]]: an own property, a member of the prototype (a
    function, or for ["__proto__"] the prototype itself), or [undefined]. *)
Inductive value (V : Type) : Type :=
| Own (v : V)
| Inherited
| Undefined.
Arguments Own {V} v.
Arguments Inherited {V}.
Arguments Undefined {V}.

Fixpoint getOwn {V} (o : t V) (k : string) : option V :=
  match o with
  | [] => None
  | (k', v) :: o' => if decide (k' = k) then Some v else getOwn o' k
  end.

Definition get {V} (o : t V) (k : string) : value V :=
  match getOwn o k with
  | Some v => Own v
  | None => if inPrototype k then Inherited else Undefined
  end.

Fixpoint update {V} (o : t V) (k : string) (v : V) : t V :=
  match o with
  | [] => []
  | (k', v') :: o' =>
      if decide (k' = k) then (k', v) :: o' else (k', v') :: update o' k v
  end.

(** [o[k] = v]: an own property is overwritten in place; a new one is
    appended, also over an inherited function; ["__proto__"] that is not
    an own property goes to the setter of the prototype, which creates no
    property. *)
Definition set {V} (o : t V) (k : string) (v : V) : t V :=
  match getOwn o k with
  | Some _ => update o k v
  | None => if decide (k = "__proto__") then o else (o ++ [(k, v)])%list
  end.

(** [delete o[k]] *)
Definition delete {V} (o : t V) (k : string) : t V :=
  filter (fun kv => kv.1 ≠ k) o.

(** An array index: the canonical decimal string of an integer from 0 to
    2^32 - 2. *)
Definition arrayIndex (k : string) : option Z :=
  match k with
  | EmptyString => None
  | String c r =>
      if JS.allDigits k && (negb (Ascii.eqb c "0") || bool_decide (r = EmptyString))
      then let v := JS.decimalValue 0 k in
           if v <=? 4294967294 then Some v else None
      else None
  end.

Definition indexLe (a b : Z * string) : Prop := a.1 <= b.1.

#[global] Instance indexLe_dec : RelDecision indexLe.
Proof. intros a b. unfold indexLe. apply _. Defined.

(** [Object.keys(o)]: the array indices in ascending order, then the other
    names in creation order. *)
Definition keys {V} (o : t V) : list string :=
  let ks := map fst o in
  (map snd (merge_sort indexLe (omap (fun k => (fun i => (i, k)) <$> arrayIndex k) ks))
   ++ filter (fun k => arrayIndex k = None) ks)%list.

End JSObject.

(** [arr.sort()] on strings: ascending by code units. *)
Definition sortStrings (l : list string) : list string := merge_sort String.le l.

(** [a || b] on an optional string: [undefined] and [""] give [b]. *)
Definition orString (a : option string) (b : string) : string :=
  match a with
  | Some s => if decide (s = "") then b else s
  | None => b
  end.

(** ** The stored documents *)

Inductive Role := admin | employee.

Module Account.
Record t := mk {
  username : string;
  password : string;
  role : Role;
  hourlyRate : option float;
  shiftStart : option string;
  shiftEnd : option string
}.
End Account.

Module LogEntry.
Record t := mk {
  username : string;
  date : string;
  punchIn : string;
  punchOut : string;
  minutesWorked : Z;
  payPeriodStart : string
}.
End LogEntry.

Module PunchRecord.
Record t := mk { date : string; punchIn : string }.
End PunchRecord.

Module PaySettings.
Record t := mk { startDays : list Z }.
End PaySettings.

(** The four documents of [localStorage] as [Storage.get] decodes them:
    ['accounts'], ['paySettings'], ['logs'] and ['currentPunch']. *)
Record Store := mkStore {
  accounts : list Account.t;
  paySettings : PaySettings.t;
  logs : list LogEntry.t;
  currentPunch : JSObject.t PunchRecord.t
}.

(** What a handler shows: [alert], an element's [textContent], the [hidden]
    class of an element, and the tables it renders again. *)
Inductive Effect :=
| Alert (msg : string)
| SetText (element text : string)
| Reveal (element : string)
| Conceal (element : string)
| Refresh (table : string).

(** ** The key-value store *)

Module Storage.

Section Get.
(** The decoded values, and the JSON grammar on non-empty texts ([None]: a
    SyntaxError); both are left open. *)
Context {Value : Type}.
Variable parseText : string -> option Value.

(** [JSON.parse]: the empty text is not JSON. *)
Definition JSON_parse (raw : string) : option Value :=
  if decide (raw = "") then None else parseText raw.

Inductive Console := warn (message key : string).

(** [Storage.get(key, defaultValue)] on the contents of [localStorage];
    [getItem] of a key that is not there is [null]. *)
Definition get (localStorage : gmap string string) (key : string)
    (defaultValue : Value) : Value * list Console :=
  match localStorage !! key with
  | None => (defaultValue, [])
  | Some raw =>
      if decide (raw = "") then (defaultValue, [])
      else match JSON_parse raw with
           | Some v => (v, [])
           | None => (defaultValue, [warn "Error parsing" key])
           end
  end.
End Get.

(** A fragment of the JSON grammar for examples: the three literal names. *)
Inductive Literal := JNull | JTrue | JFalse.

Definition parseLiteral (raw : string) : option Literal :=
  if decide (raw = "null") then Some JNull
  else if decide (raw = "true") then Some JTrue
  else if decide (raw = "false") then Some JFalse
  else None.

End Storage.

(** ** Handlers of the admin view *)

(** The click handler of a delete button: [idx] is the button's
    [data-index], [confirm] the user's answer to the dialog. *)
Definition deleteEmployee (confirm : string -> bool) (idx : nat) (st : Store)
    : Store * list Effect :=
  let accs := accounts st in
  match accs !! idx with
  | Some user =>
      if confirm ("Delete employee '" ++ Account.username user ++
                  "'? This will remove all their logs.")
      then
        let logs' := filter (fun log => LogEntry.username log ≠ Account.username user)
                            (logs st) in
        let accs' := base.delete idx accs in
        ({| accounts := accs'; paySettings := paySettings st; logs := logs';
            currentPunch := currentPunch st |},
         [Refresh "employees-table"; Refresh "logs-table"])
      else (st, [])
  | None => (st, [])
  end.

Definition validDay (n : Z) : bool := (1 <=? n) && (n <=? 31).

(** The days the handler keeps from the input:
    [input.split(',').map(s => parseInt(s.trim())).filter(...)]. *)
Definition parseDays (input : string) : list Z :=
  omap (fun n : option Z => n ≫= fun d => if validDay d then Some d else None)
       (map (fun s => JSNumber.parseInt (JS.trim s)) (JS.split "," input)).

(** The click handler of [save-pay-period]; [value] is the text of the
    input field. *)
Definition savePayPeriod (value : string) (st : Store) : Store * list Effect :=
  let input := JS.trim value in
  let parts := parseDays input in
  match parts with
  | [] => (st, [SetText "pay-period-message"
                  "Please enter valid day numbers separated by commas."])
  | _ =>
      ({| accounts := accounts st;
          paySettings := PaySettings.mk (sortNumeric parts);
          logs := logs st; currentPunch := currentPunch st |},
       [SetText "pay-period-message" "Pay period settings saved."])
  end.

(** ** Handlers of the employee view *)

(** [formatHours(mins)] *)
Definition formatHours (mins : float) : option string :=
  JSNumber.toFixed2 (mins / 60)%float.

(** The click handler of [punch-in-button]; [now] is [new Date()]. *)
Definition punchIn (LocalTZA : Z) (currentUser : Account.t) (now : Z)
    (st : Store) : Store * list Effect :=
  let timeStr := JSDate.toTimeString5 LocalTZA now in
  let today := JSDate.isoDate now in
  let currentPunch' :=
    JSObject.set (currentPunch st) (Account.username currentUser)
                 (PunchRecord.mk today timeStr) in
  ({| accounts := accounts st; paySettings := paySettings st; logs := logs st;
      currentPunch := currentPunch' |},
   [Conceal "punch-in-button"; Reveal "punch-out-button";
    SetText "punch-message" ("You punched in at " ++ timeStr ++ ".")]).

(** The click handler of [punch-out-button].  [None]: the run leaves what is
    modelled (a clock string that is not of digits, an Invalid Date). *)
Definition punchOut (LocalTZA : Z) (currentUser : Account.t) (now : Z)
    (st : Store) : option (Store * list Effect) :=
  let timeOutStr := JSDate.toTimeString5 LocalTZA now in
  let today := JSDate.isoDate now in
  let rejected := Some (st, [Alert "No punch in record found for today."]) in
  match JSObject.get (currentPunch st) (Account.username currentUser) with
  | JSObject.Own punchRecord =>
      if decide (PunchRecord.date punchRecord ≠ today) then rejected
      else
        let timeInStr := PunchRecord.punchIn punchRecord in
        let account := currentUser in
        let scheduledStart := orString (Account.shiftStart account) "09:00" in
        let scheduledEnd := orString (Account.shiftEnd account) "17:00" in
        minutesWorked ← computeWorkedMinutes scheduledStart scheduledEnd
                          timeInStr timeOutStr;
        payPeriodStart ← getPayPeriodStart LocalTZA
                           (PaySettings.startDays (paySettings st)) now;
        let logs' := (logs st ++
          [LogEntry.mk (Account.username account) today timeInStr timeOutStr
                       minutesWorked payPeriodStart])%list in
        let currentPunch' :=
          JSObject.delete (currentPunch st) (Account.username currentUser) in
        hours ← formatHours (JSNumber.ofZ minutesWorked);
        Some ({| accounts := accounts st; paySettings := paySettings st;
                 logs := logs'; currentPunch := currentPunch' |},
              [Reveal "punch-in-button"; Conceal "punch-out-button";
               SetText "punch-message"
                 ("You punched out at " ++ timeOutStr ++ ". Total worked: " ++
                  hours ++ " hours.")])
  | JSObject.Inherited | JSObject.Undefined => rejected
  end.

(** ** The summary *)

(** What a property of an [empMap] holds: a number of minutes; a string,
    once a number was added to a member of the prototype (the text of a
    built-in function, then digits); NaN. *)
Inductive Cell := CNum (n : Z) | CStr | CNaN.

Module Row.
Record t := mk {
  period : string;
  user : string;
  totalHours : string;
  totalPay : string
}.
End Row.

(** [!empMap[k]]: [undefined], 0 and NaN are false; a string of that kind
    and the members of the prototype are true. *)
Definition cellFalsy (v : JSObject.value Cell) : bool :=
  match v with
  | JSObject.Undefined => true
  | JSObject.Own (CNum n) => n =? 0
  | JSObject.Own CNaN => true
  | JSObject.Own CStr => false
  | JSObject.Inherited => false
  end.

(** [empMap[k] + m] for a number [m]. *)
Definition addMinutes (v : JSObject.value Cell) (m : Z) : Cell :=
  match v with
  | JSObject.Own (CNum n) => CNum (n + m)
  | JSObject.Own CStr => CStr
  | JSObject.Own CNaN => CNaN
  | JSObject.Inherited => CStr
  | JSObject.Undefined => CNaN
  end.

(** The last two statements of the loop body, on one [empMap]. *)
Definition tally (empMap : JSObject.t Cell) (log : LogEntry.t) : JSObject.t Cell :=
  let k := LogEntry.username log in
  let empMap1 :=
    if cellFalsy (JSObject.get empMap k) then JSObject.set empMap k (CNum 0)
    else empMap in
  JSObject.set empMap1 k
    (addMinutes (JSObject.get empMap1 k) (LogEntry.minutesWorked log)).

(** The loop body.  [None]: [summaryMap[log.payPeriodStart]] is a member of
    the prototype, and the loop would write into a built-in object. *)
Definition summaryStep (summaryMap : JSObject.t (JSObject.t Cell))
    (log : LogEntry.t) : option (JSObject.t (JSObject.t Cell)) :=
  let p := LogEntry.payPeriodStart log in
  let summaryMap1 :=
    match JSObject.get summaryMap p with
    | JSObject.Undefined => JSObject.set summaryMap p []
    | _ => summaryMap
    end in
  match JSObject.get summaryMap1 p with
  | JSObject.Own empMap => Some (JSObject.set summaryMap1 p (tally empMap log))
  | _ => None
  end.

Definition buildSummaryMap (logs : list LogEntry.t)
    : option (JSObject.t (JSObject.t Cell)) :=
  foldl (fun acc log => acc ≫= fun m => summaryStep m log) (Some []) logs.

(** [totalMins] as a number: a string of that kind is NaN. *)
Definition cellNumber (c : Cell) : float :=
  match c with
  | CNum n => JSNumber.ofZ n
  | CStr | CNaN => PrimFloat.nan
  end.

(** [account?.hourlyRate || 0] for [accounts.find(a => a.username === user)] *)
Definition rateOf (accounts : list Account.t) (user : string) : float :=
  match find (fun a => bool_decide (Account.username a = user)) accounts with
  | Some account =>
      match Account.hourlyRate account with
      | Some r => if JSNumber.isFalsy r then 0%float else r
      | None => 0%float
      end
  | None => 0%float
  end.

Definition summaryRow (accounts : list Account.t) (period user : string)
    (totalMins : Cell) : option Row.t :=
  let rate := rateOf accounts user in
  totalPay ← JSNumber.toFixed2 (cellNumber totalMins / 60 * rate)%float;
  hours ← formatHours (cellNumber totalMins);
  Some (Row.mk period user hours totalPay).

Definition periodRows (accounts : list Account.t) (period : string)
    (empMap : JSObject.t Cell) : option (list Row.t) :=
  mapM (fun user => JSObject.getOwn empMap user ≫= summaryRow accounts period user)
       (JSObject.keys empMap).

(** [generateSummary()] on the decoded ['logs'] and ['accounts'].  [None]:
    the run leaves what is modelled (see [summaryStep] and
    [JSNumber.toFixed2]). *)
Definition generateSummary (logs : list LogEntry.t) (accounts : list Account.t)
    : option (list Row.t) :=
  summaryMap ← buildSummaryMap logs;
  summaryRows ← mapM (fun period =>
                        JSObject.getOwn summaryMap period ≫= periodRows accounts period)
                     (sortStrings (JSObject.keys summaryMap));
  Some (List.concat summaryRows).

(** ** Notions the statements use *)

(** A clock string ["HH:MM"]: two digits, a colon, two digits, the hours
    from 00 to 23 and the minutes from 00 to 59. *)
Definition isClock (t : string) : bool :=
  match t with
  | String a (String b (String ":" (String c (String d EmptyString)))) =>
      JS.isDigit a && JS.isDigit b && JS.isDigit c && JS.isDigit d &&
      (10 * JS.digitValue a + JS.digitValue b <=? 23) &&
      (10 * JS.digitValue c + JS.digitValue d <=? 59)
  | _ => false
  end.

(** A store for the examples: one admin, two employees, the default pay
    settings, three log entries and one open punch. *)
Definition exampleAccounts : list Account.t :=
  [ Account.mk "admin" "admin" admin None None None;
    Account.mk "alice" "a" employee (Some 10%float) (Some "09:00") (Some "17:00");
    Account.mk "bob" "b" employee (Some 12.5%float) (Some "22:00") (Some "06:00") ].

Definition exampleLogs : list LogEntry.t :=
  [ LogEntry.mk "alice" "2024-03-10" "09:10" "17:30" 470 "2024-03-01";
    LogEntry.mk "bob" "2024-03-10" "09:00" "17:00" 480 "2024-03-01";
    LogEntry.mk "alice" "2024-03-20" "09:00" "16:00" 420 "2024-03-15" ].

Definition exampleStore : Store :=
  {| accounts := exampleAccounts;
     paySettings := PaySettings.mk [1; 15];
     logs := exampleLogs;
     currentPunch := [("alice", PunchRecord.mk "2024-03-21" "08:55")] |}.

(** The number of days of month [m] (0 for January to 11 for December) of
    year [y]. *)
Definition daysInMonth (y m : Z) : Z :=
  match m with
  | 1 => if JSDate.isLeapYear y then 29 else 28
  | 3 | 5 | 8 | 10 => 30
  | _ => 31
  end.

(** The largest element of a list, if it has one. *)
Definition largest (l : list Z) : option Z :=
  match l with
  | [] => None
  | x :: l' => Some (fold_right Z.max x l')
  end.

(** The pay period start in the words of the specification, for the civil
    date [d] of month [m] (0 to 11) of year [y]: among the start days not
    after [d] the largest, in the month of the date; if there is none, the
    largest start day, in the month before; either clamped to the last day
    of its month.  [None] when there is no start day at all. *)
Definition payPeriodStartSpec (startDays : list Z) (y m d : Z)
    : option (Z * Z * Z) :=
  match largest (filter (fun s => s <= d) startDays) with
  | Some chosen => Some (y, m, Z.min chosen (daysInMonth y m))
  | None =>
      let py := if m =? 0 then y - 1 else y in
      let pm := if m =? 0 then 11 else m - 1 in
      (fun chosen => (py, pm, Z.min chosen (daysInMonth py pm))) <$> largest startDays
  end.

(** The ISO date ["YYYY-MM-DD"] of a civil date, the month from 0 to 11. *)
Definition isoYMD (ymd : Z * Z * Z) : string :=
  let '(y, m, d) := ymd in
  JSDate.isoYear y ++ "-" ++ JSDate.pad2 (m + 1) ++ "-" ++ JSDate.pad2 d.

(** [c] is an element of [l] and no element of [l] is larger. *)
Definition isLargest (l : list Z) (c : Z) : Prop :=
  c ∈ l /\ forall x, x ∈ l -> x <= c.

(** The minutes the log entries of one pay period and one user add up to. *)
Definition totalMinutes (logs : list LogEntry.t) (period user : string) : Z :=
  foldr (fun log acc => LogEntry.minutesWorked log + acc) 0
    (filter (fun log => LogEntry.payPeriodStart log = period /\
                        LogEntry.username log = user) logs).

(** Some log entry is of this pay period and this user. *)
Definition hasEntry (logs : list LogEntry.t) (period user : string) : Prop :=
  exists log, log ∈ logs /\ LogEntry.payPeriodStart log = period /\
              LogEntry.username log = user.

(** The cell of a user in a period of a [summaryMap]. *)
Definition summaryCell (summaryMap : JSObject.t (JSObject.t Cell))
    (period user : string) : option Cell :=
  JSObject.getOwn summaryMap period ≫= fun empMap => JSObject.getOwn empMap user.

(** What the loop of [generateSummary] keeps: the periods are distinct, so
    are the users of a period, no period is without a user, and a cell is
    there exactly for the pairs that have an entry, holding their sum. *)
Definition summaryInv (logs : list LogEntry.t)
    (summaryMap : JSObject.t (JSObject.t Cell)) : Prop :=
  NoDup (map fst summaryMap) /\
  (forall p e, JSObject.getOwn summaryMap p = Some e -> e <> [] /\ NoDup (map fst e)) /\
  (forall p u c, summaryCell summaryMap p u = Some c ->
     hasEntry logs p u /\ c = CNum (totalMinutes logs p u)) /\
  (forall p u, hasEntry logs p u -> is_Some (summaryCell summaryMap p u)).

(** The minutes a cell holds before an entry is added: those of a number,
    0 when the user has no cell yet. *)
Definition cellMinutes (c : option Cell) : Z :=
  match c with
  | Some (CNum n) => n
  | _ => 0
  end.

(** The period and the user of a row. *)
Definition rowKey (r : Row.t) : string * string := (Row.period r, Row.user r).

(** The pairs of period and user in the order [generateSummary] visits
    them: the sorted periods, and for each the users in key order. *)
Definition summaryPairs (summaryMap : JSObject.t (JSObject.t Cell))
    : list (string * string) :=
  List.concat
    (map (fun p => map (pair p)
                     (JSObject.keys (default [] (JSObject.getOwn summaryMap p))))
         (sortStrings (JSObject.keys summaryMap))).

(** A row is that of a pair of period and user: the pair has a cell in the
    summary map, and the row is made of it. *)
Definition rowOf (accounts : list Account.t)
    (summaryMap : JSObject.t (JSObject.t Cell)) (pu : string * string)
    (r : Row.t) : Prop :=
  exists c, summaryCell summaryMap pu.1 pu.2 = Some c /\
            summaryRow accounts pu.1 pu.2 c = Some r.

(** ** The rest of the handlers *)

(** What the handlers below do to the page beyond [Effect]: the [value] of
    an input field, and the session variable [currentUser]. *)
Inductive UiEffect :=
| Page (e : Effect)
| SetValue (input value : string)
| SetCurrentUser (user : option Account.t).

#[global] Instance Role_eq_dec : EqDecision Role.
Proof. solve_decision. Defined.

(** What [loadEmployeeView] shows of the punch state: the time of the open
    punch of today, if there is one. *)
Definition openPunchToday (currentUser : Account.t) (now : Z) (st : Store)
    : option string :=
  match JSObject.get (currentPunch st) (Account.username currentUser) with
  | JSObject.Own punchRecord =>
      if decide (PunchRecord.date punchRecord = JSDate.isoDate now)
      then Some (PunchRecord.punchIn punchRecord) else None
  | JSObject.Inherited | JSObject.Undefined => None
  end.

(** [loadEmployeeView(account)]; [now] is the [new Date()] it takes.  It
    reads the store and writes nothing. *)
Definition loadEmployeeView (account : Account.t) (now : Z) (st : Store)
    : list UiEffect :=
  let start := orString (Account.shiftStart account) "09:00" in
  let end_ := orString (Account.shiftEnd account) "17:00" in
  ([SetCurrentUser (Some account);
    Page (Conceal "login-section"); Page (Conceal "admin-section");
    Page (Reveal "employee-section");
    Page (SetText "employee-welcome"
            ("Welcome, " ++ Account.username account ++ "!"));
    Page (SetText "shift-info"
            ("Your shift is scheduled from " ++ start ++ " to " ++ end_ ++ "."))]
   ++ match openPunchToday account now st with
      | Some time =>
          [Page (Conceal "punch-in-button"); Page (Reveal "punch-out-button");
           Page (SetText "punch-message" ("You punched in at " ++ time ++ "."))]
      | None =>
          [Page (Reveal "punch-in-button"); Page (Conceal "punch-out-button");
           Page (SetText "punch-message" "")]
      end
   ++ [Page (Conceal "history-section")])%list.

(** [startDays.join(',')] *)
Fixpoint joinDays (days : list Z) : string :=
  match days with
  | [] => ""
  | [d] => JS.String_ d
  | d :: ds => JS.String_ d ++ "," ++ joinDays ds
  end.

(** [loadAdminView(account)] *)
Definition loadAdminView (account : Account.t) (st : Store) : list UiEffect :=
  [SetCurrentUser (Some account);
   Page (Conceal "login-section"); Page (Conceal "employee-section");
   Page (Reveal "admin-section");
   SetValue "pay-period-days" (joinDays (PaySettings.startDays (paySettings st)));
   Page (Refresh "employees-table"); Page (Refresh "logs-table");
   Page (Conceal "summary-table"); Page (Conceal "export-summary-button")].

(** The account the login handler finds:
    [accounts.find(acc => acc.username === username && acc.password ===
    password && acc.role === role)]. *)
Definition findAccount (username password : string) (role : Role)
    (accounts : list Account.t) : option Account.t :=
  find (fun acc => bool_decide (Account.username acc = username) &&
                   bool_decide (Account.password acc = password) &&
                   bool_decide (Account.role acc = role)) accounts.

(** The click handler of [login-button]: the texts of the two fields, the
    role of the selector, and [now] for the employee view. *)
Definition login (usernameValue passwordValue : string) (role : Role) (now : Z)
    (st : Store) : list UiEffect :=
  let username := JS.trim usernameValue in
  match findAccount username passwordValue role (accounts st) with
  | None => [Page (SetText "login-error" "Invalid credentials or role.")]
  | Some account =>
      (Page (SetText "login-error" "")
       :: (match Account.role account with
           | employee => loadEmployeeView account now st
           | admin => loadAdminView account st
           end)
       ++ [SetValue "login-username" ""; SetValue "login-password" ""])%list
  end.

(** The click handler of [add-employee-button]: the texts of the fields,
    and [rate], the [parseFloat] of the rate field. *)
Definition addEmployee (usernameValue password : string) (rate : float)
    (shiftStart shiftEnd : string) (st : Store) : Store * list UiEffect :=
  let username := JS.trim usernameValue in
  if bool_decide (username = "") || bool_decide (password = "") ||
     bool_decide (shiftStart = "") || bool_decide (shiftEnd = "") ||
     PrimFloat.is_nan rate
  then (st, [Page (SetText "add-employee-error"
                     "Please fill in all fields and provide valid values.")])
  else if existsb (fun acc => bool_decide (Account.username acc = username))
                  (accounts st)
  then (st, [Page (SetText "add-employee-error" "Username already exists.")])
  else
    ({| accounts := (accounts st ++
                     [Account.mk username password employee (Some rate)
                                 (Some shiftStart) (Some shiftEnd)])%list;
        paySettings := paySettings st; logs := logs st;
        currentPunch := currentPunch st |},
     [SetValue "new-emp-username" ""; SetValue "new-emp-password" "";
      SetValue "new-emp-rate" ""; SetValue "new-emp-shift-start" "";
      SetValue "new-emp-shift-end" "";
      Page (SetText "add-employee-error" ""); Page (Refresh "employees-table")]).

(** ** Decoded documents and [initDefaults] *)

(** The values [JSON.parse] returns. *)
#[warnings="-register-all"]
Inductive Json :=
| JsonNull
| JsonBool (b : bool)
| JsonNumber (x : float)
| JsonString (s : string)
| JsonArray (items : list Json)
| JsonObject (members : list (string * Json)).

(** [!v] is false: the values that are not [null], [false], 0, NaN or the
    empty string. *)
Definition jsonTruthy (v : Json) : bool :=
  match v with
  | JsonNull => false
  | JsonBool b => b
  | JsonNumber x => negb (JSNumber.isFalsy x)
  | JsonString s => negb (bool_decide (s = ""))
  | JsonArray _ | JsonObject _ => true
  end.

Definition defaultAccounts : Json :=
  JsonArray [JsonObject [("username", JsonString "admin");
                         ("password", JsonString "admin");
                         ("role", JsonString "admin")]].

Definition defaultPaySettings : Json :=
  JsonObject [("startDays", JsonArray [JsonNumber 1; JsonNumber 15])].

Section Defaults.
(** The JSON grammar and [JSON.stringify], left open. *)
Variable parseText : string -> option Json.
Variable stringify : Json -> string.

(** [Storage.set(key, value)] *)
Definition Storage_set (localStorage : gmap string string) (key : string)
    (value : Json) : gmap string string :=
  <[key := stringify value]> localStorage.

(** One block of [initDefaults]: the document is read with the default
    [null], and written when what was read is false. *)
Definition initDocument (key : string) (value : Json)
    (localStorage : gmap string string) : gmap string string :=
  if jsonTruthy (fst (Storage.get parseText localStorage key JsonNull))
  then localStorage
  else Storage_set localStorage key value.

(** [initDefaults()] *)
Definition initDefaults (localStorage : gmap string string)
    : gmap string string :=
  initDocument "currentPunch" (JsonObject [])
    (initDocument "logs" (JsonArray [])
       (initDocument "paySettings" defaultPaySettings
          (initDocument "accounts" defaultAccounts localStorage))).
End Defaults.

(** A codec for examples, on four texts only: it prints the four default
    documents and reads them back; every other text is malformed for it. *)
Definition exampleStringify (v : Json) : string :=
  match v with
  | JsonArray [] => "[]"
  | JsonObject [] => "{}"
  | JsonArray _ => "[admin]"
  | JsonObject _ => "{startDays:[1,15]}"
  | _ => "null"
  end.

Definition exampleParse (raw : string) : option Json :=
  if decide (raw = "[]") then Some (JsonArray [])
  else if decide (raw = "{}") then Some (JsonObject [])
  else if decide (raw = "[admin]") then Some defaultAccounts
  else if decide (raw = "{startDays:[1,15]}") then Some defaultPaySettings
  else None.

(** ** The employee table and the export *)

(** The rows [refreshEmployeeTable] renders: one for each account of role
    employee, with the index of the account in the list as the
    [data-index] of its delete button. *)
Definition employeeRows (accounts : list Account.t) : list (nat * Account.t) :=
  filter (fun row => Account.role row.2 = employee) (imap pair accounts).

(** The line feed. *)
Definition LF : string := String (ascii_of_N 10) EmptyString.

Definition csvHeader : string :=
  "Pay Period Start,Employee,Total Hours,Total Pay" ++ LF.

Definition csvLine (r : Row.t) : string :=
  Row.period r ++ "," ++ Row.user r ++ "," ++ Row.totalHours r ++ "," ++
  Row.totalPay r ++ LF.

(** What [exportSummary] ends in: the alert, or the download of a file. *)
Inductive Export :=
| ExportAlert (msg : string)
| Download (filename content : string).

(** [exportSummary()]; [None] as for [generateSummary]. *)
Definition exportSummary (logs : list LogEntry.t) (accounts : list Account.t)
    : option Export :=
  rows ← generateSummary logs accounts;
  Some (match rows with
        | [] => ExportAlert "No summary data to export."
        | _ => Download "timekeeper_summary.csv"
                 (foldl (fun csv r => csv ++ csvLine r) csvHeader rows)
        end).
Example timeToMinutes_0910 : timeToMinutes "09:10" = Some 550.
Proof. reflexivity. Qed.

Example minutesToTime_550 : minutesToTime 550 = "09:10".
Proof. reflexivity. Qed.

Example computeWorkedMinutes_scenario :
  computeWorkedMinutes "09:00" "17:00" "09:10" "17:30" = Some 470.
Proof. reflexivity. Qed.

Example toISOString_epoch :
  JSDate.toISOString 0 = "1970-01-01T00:00:00.000Z".
Proof. reflexivity. Qed.

Example toISOString_2024 :
  JSDate.toISOString (noonUTC 2024 2 29) = "2024-02-29T12:00:00.000Z".
Proof. vm_compute. reflexivity. Qed.

Example getPayPeriodStart_utc_0310 :
  getPayPeriodStart 0 [1; 15] (noonUTC 2024 3 10) = Some "2024-03-01".
Proof. vm_compute. reflexivity. Qed.

Example getPayPeriodStart_utc_0320 :
  getPayPeriodStart 0 [1; 15] (noonUTC 2024 3 20) = Some "2024-03-15".
Proof. vm_compute. reflexivity. Qed.

Example getPayPeriodStart_utc_0301 :
  getPayPeriodStart 0 [1; 15] (noonUTC 2024 3 1) = Some "2024-03-01".
Proof. vm_compute. reflexivity. Qed.

Example getPayPeriodStart_utc_feb15_31 :
  getPayPeriodStart 0 [31] (noonUTC 2024 2 15) = Some "2024-01-31".
Proof. vm_compute. reflexivity. Qed.

Example getPayPeriodStart_cet_0310 :
  getPayPeriodStart JSDate.msPerHour [1; 15] (noonUTC 2024 3 10) = Some "2024-02-29".
Proof. vm_compute. reflexivity. Qed.

Example getPayPeriodStart_west_0310 :
  getPayPeriodStart (- 5 * JSDate.msPerHour) [1; 15] (noonUTC 2024 3 10) = Some "2024-03-01".
Proof. vm_compute. reflexivity. Qed.

(** ** Clock strings *)

Lemma isDigit_digitChar (a : ascii) :
  JS.isDigit a = true ->
  a = JS.digitChar (JS.digitValue a) /\ 0 <= JS.digitValue a <= 9.
Proof.
  destruct a as [[] [] [] [] [] [] [] []]; intros H; vm_compute in H;
    try discriminate H; vm_compute; intuition congruence.
Qed.

Lemma digit_cases (d : Z) :
  0 <= d <= 9 ->
  d = 0 \/ d = 1 \/ d = 2 \/ d = 3 \/ d = 4 \/ d = 5 \/ d = 6 \/ d = 7 \/
  d = 8 \/ d = 9.
Proof. lia. Qed.

(** Runs a goal over the ten values of a character known to be a digit. *)
Ltac each_digit a H :=
  let Ha := fresh in
  let Hr := fresh in
  destruct (isDigit_digitChar a H) as [Ha Hr];
  apply digit_cases in Hr;
  repeat (destruct Hr as [Hr | Hr]);
  rewrite Hr in Ha; vm_compute in Ha; subst a; clear Hr.

Lemma split_clock (a b c d : ascii) :
  JS.isDigit a = true -> JS.isDigit b = true ->
  JS.isDigit c = true -> JS.isDigit d = true ->
  JS.split ":" (String a (String b (String ":" (String c (String d EmptyString)))))
  = [String a (String b EmptyString); String c (String d EmptyString)].
Proof.
  intros Ha Hb Hc Hd.
  assert (Hne : forall x, JS.isDigit x = true -> Ascii.eqb x ":" = false).
  { intros x Hx. each_digit x Hx; reflexivity. }
  cbn [JS.split]. rewrite (Hne a Ha), (Hne b Hb), (Hne c Hc), (Hne d Hd).
  reflexivity.
Qed.

Lemma Number_two_digits (a b : ascii) :
  JS.isDigit a = true -> JS.isDigit b = true ->
  JS.Number (String a (String b EmptyString))
  = Some (10 * JS.digitValue a + JS.digitValue b).
Proof. intros Ha Hb. each_digit a Ha; each_digit b Hb; reflexivity. Qed.

Lemma timeToMinutes_clock (a b c d : ascii) :
  JS.isDigit a = true -> JS.isDigit b = true ->
  JS.isDigit c = true -> JS.isDigit d = true ->
  timeToMinutes (String a (String b (String ":" (String c (String d EmptyString)))))
  = Some ((10 * JS.digitValue a + JS.digitValue b) * 60
          + (10 * JS.digitValue c + JS.digitValue d)).
Proof.
  intros Ha Hb Hc Hd. unfold timeToMinutes.
  rewrite split_clock by assumption. cbn [map].
  rewrite !Number_two_digits by assumption.
  destruct (isDigit_digitChar a Ha) as [_ ?], (isDigit_digitChar b Hb) as [_ ?],
    (isDigit_digitChar c Hc) as [_ ?], (isDigit_digitChar d Hd) as [_ ?].
  unfold JS.safe.
  destruct (Z.leb_spec (Z.abs ((10 * JS.digitValue a + JS.digitValue b) * 60
     + (10 * JS.digitValue c + JS.digitValue d))) JS.MAX_SAFE_INTEGER) as [_ | Hbig];
    [reflexivity |].
  unfold JS.MAX_SAFE_INTEGER in Hbig. simpl in Hbig. lia.
Qed.

Lemma pad2_two_digits (a b : ascii) :
  JS.isDigit a = true -> JS.isDigit b = true ->
  JS.padStart 2 "0" (JS.String_ (10 * JS.digitValue a + JS.digitValue b))
  = String a (String b EmptyString).
Proof. intros Ha Hb. each_digit a Ha; each_digit b Hb; reflexivity. Qed.

Lemma minutesToTime_split (h m : Z) :
  0 <= h -> 0 <= m < 60 ->
  minutesToTime (h * 60 + m)
  = JS.padStart 2 "0" (JS.String_ h) ++ ":" ++ JS.padStart 2 "0" (JS.String_ m).
Proof.
  intros Hh Hm. unfold minutesToTime.
  rewrite Z.rem_mod_nonneg by lia.
  replace ((h * 60 + m) / 60) with h by (Z.div_mod_to_equations; lia).
  replace ((h * 60 + m) mod 60) with m by (Z.div_mod_to_equations; lia).
  reflexivity.
Qed.

(** C8.  For every valid clock string [t] of the form "HH:MM" (two digits
    each, hours 00 to 23, minutes 00 to 59), [timeToMinutes t] is a number
    and [minutesToTime] of it is [t] again. *)
Theorem minutesToTime_timeToMinutes (t : string) :
  isClock t = true ->
  exists mins, timeToMinutes t = Some mins /\ minutesToTime mins = t.
Proof.
  intros H.
  destruct t as [| a [| b [| colon [| c [| d [| ? ?]]]]]]; try discriminate H;
    destruct colon as [[] [] [] [] [] [] [] []]; cbn [isClock] in H;
    try discriminate H.
  apply andb_prop in H as [H Hm]. apply andb_prop in H as [H Hh].
  apply andb_prop in H as [H Hd]. apply andb_prop in H as [H Hc].
  apply andb_prop in H as [Ha Hb].
  destruct (isDigit_digitChar a Ha) as [_ ?], (isDigit_digitChar b Hb) as [_ ?],
    (isDigit_digitChar c Hc) as [_ ?], (isDigit_digitChar d Hd) as [_ ?].
  eexists. split; [apply timeToMinutes_clock; assumption |].
  rewrite minutesToTime_split by lia.
  rewrite !pad2_two_digits by assumption. reflexivity.
Qed.

Lemma minutesToTime_timeToMinutes_witness :
  isClock "09:10" = true /\
  exists mins, timeToMinutes "09:10" = Some mins /\ minutesToTime mins = "09:10".
Proof.
  split; [reflexivity | apply (minutesToTime_timeToMinutes "09:10"); reflexivity].
Defined.

(** ** Worked minutes *)

Lemma workedMinutes_formula (ss se ai ao : Z) :
  workedMinutes ss se ai ao = Z.max 0 (Z.min ao se - ss - Z.max 0 (ai - ss)).
Proof.
  unfold workedMinutes.
  destruct (Z.gtb_spec ai ss), (Z.ltb_spec (Z.min ao se - ss - (ai - ss)) 0),
    (Z.ltb_spec (Z.min ao se - ss - 0) 0); lia.
Qed.

Lemma computeWorkedMinutes_Some (s1 s2 s3 s4 : string) (ss se ai ao : Z) :
  timeToMinutes s1 = Some ss -> timeToMinutes s2 = Some se ->
  timeToMinutes s3 = Some ai -> timeToMinutes s4 = Some ao ->
  computeWorkedMinutes s1 s2 s3 s4 = Some (workedMinutes ss se ai ao).
Proof.
  intros H1 H2 H3 H4. unfold computeWorkedMinutes.
  rewrite H1, H2, H3, H4. reflexivity.
Qed.

(** C2.  For all scheduled and actual clock strings whose minute offsets are
    [ss], [se], [ai], [ao], [computeWorkedMinutes] is
    [max(0, min(ao, se) - ss - max(0, ai - ss))]; with shift 09:00 to 17:00,
    punch-in 09:10 and punch-out 17:30 it is 470. *)
Theorem computeWorkedMinutes_formula :
  (forall (s1 s2 s3 s4 : string) (ss se ai ao : Z),
     timeToMinutes s1 = Some ss -> timeToMinutes s2 = Some se ->
     timeToMinutes s3 = Some ai -> timeToMinutes s4 = Some ao ->
     computeWorkedMinutes s1 s2 s3 s4
     = Some (Z.max 0 (Z.min ao se - ss - Z.max 0 (ai - ss)))) /\
  computeWorkedMinutes "09:00" "17:00" "09:10" "17:30" = Some 470.
Proof.
  split; [| reflexivity].
  intros. rewrite <- workedMinutes_formula.
  apply computeWorkedMinutes_Some; assumption.
Qed.

Lemma computeWorkedMinutes_formula_witness :
  timeToMinutes "08:30" = Some 510 /\ timeToMinutes "16:45" = Some 1005 /\
  timeToMinutes "08:42" = Some 522 /\ timeToMinutes "16:20" = Some 980 /\
  computeWorkedMinutes "08:30" "16:45" "08:42" "16:20"
  = Some (Z.max 0 (Z.min 980 1005 - 510 - Z.max 0 (522 - 510))).
Proof.
  repeat (split; [reflexivity |]).
  apply (proj1 computeWorkedMinutes_formula "08:30" "16:45" "08:42" "16:20");
    reflexivity.
Defined.

(** C6, as the code has it.  For all inputs with minute offsets [ss], [se],
    [ai], [ao]: the result is never negative; when [ss <= se] it is
    [se - ss] for [ai = ss] and [ao = se]; when [ai > ss] it is the on-time
    result (that of arriving at the scheduled start) reduced by [ai - ss]
    and floored at zero, so exactly the on-time result minus [ai - ss]
    whenever [ai <= min(ao, se)]; and when [ss <= se] it never exceeds
    [se - ss], however large [ao] is. *)
Theorem computeWorkedMinutes_bounds (s1 s2 s3 s4 : string) (ss se ai ao : Z) :
  timeToMinutes s1 = Some ss -> timeToMinutes s2 = Some se ->
  timeToMinutes s3 = Some ai -> timeToMinutes s4 = Some ao ->
  exists r onTime,
    computeWorkedMinutes s1 s2 s3 s4 = Some r /\
    computeWorkedMinutes s1 s2 s1 s4 = Some onTime /\
    0 <= r /\
    (ss <= se -> ai = ss -> ao = se -> r = se - ss) /\
    (ai > ss -> r = Z.max 0 (onTime - (ai - ss))) /\
    (ai > ss -> ai <= Z.min ao se -> r = onTime - (ai - ss)) /\
    (ss <= se -> r <= se - ss).
Proof.
  intros H1 H2 H3 H4.
  exists (workedMinutes ss se ai ao), (workedMinutes ss se ss ao).
  rewrite (computeWorkedMinutes_Some _ _ _ _ _ _ _ _ H1 H2 H3 H4).
  rewrite (computeWorkedMinutes_Some _ _ _ _ _ _ _ _ H1 H2 H1 H4).
  rewrite !workedMinutes_formula.
  repeat split; lia.
Qed.

Lemma computeWorkedMinutes_bounds_witness :
  exists r onTime,
    computeWorkedMinutes "09:00" "17:00" "09:10" "17:30" = Some r /\
    computeWorkedMinutes "09:00" "17:00" "09:00" "17:30" = Some onTime /\
    0 <= r /\
    (540 <= 1020 -> 550 = 540 -> 1050 = 1020 -> r = 1020 - 540) /\
    (550 > 540 -> r = Z.max 0 (onTime - (550 - 540))) /\
    (550 > 540 -> 550 <= Z.min 1050 1020 -> r = onTime - (550 - 540)) /\
    (540 <= 1020 -> r <= 1020 - 540).
Proof.
  apply (computeWorkedMinutes_bounds "09:00" "17:00" "09:10" "17:30"
           540 1020 550 1050); reflexivity.
Defined.

(** C6 as stated fails twice.  With an overnight shift, 22:00 to 06:00,
    punched in and out on schedule, the result is 0 and not [se - ss]; and
    arriving at 17:10 for a shift that ends at 17:00 gives 0, not the
    on-time 480 reduced by the 490 late minutes. *)
Lemma computeWorkedMinutes_as_stated_fails :
  ~ (forall (s1 s2 : string) (ss se : Z),
       timeToMinutes s1 = Some ss -> timeToMinutes s2 = Some se ->
       computeWorkedMinutes s1 s2 s1 s2 = Some (se - ss)) /\
  ~ (forall (s1 s2 s3 s4 : string) (ss ai r onTime : Z),
       timeToMinutes s1 = Some ss -> timeToMinutes s3 = Some ai -> ai > ss ->
       computeWorkedMinutes s1 s2 s1 s4 = Some onTime ->
       computeWorkedMinutes s1 s2 s3 s4 = Some r ->
       r = onTime - (ai - ss)).
Proof.
  split.
  - intros H. specialize (H "22:00" "06:00" 1320 360 eq_refl eq_refl).
    vm_compute in H. discriminate H.
  - intros H.
    specialize (H "09:00" "17:00" "17:10" "17:30" 540 1030 0 480
                  eq_refl eq_refl eq_refl eq_refl eq_refl).
    discriminate H.
Qed.

(** ** The key-value store *)

(** C9, as the code has it.  [Storage.get(key, default)] returns the default
    when nothing is stored under the key, when the stored text is empty, and
    when it is not valid JSON; a non-empty text that is not valid JSON is
    logged as a warning, the empty text is not; no case throws.  Otherwise
    it returns the decoded value. *)
Theorem Storage_get_cases {Value : Type} (parseText : string -> option Value)
    (localStorage : gmap string string) (key : string) (defaultValue : Value) :
  (localStorage !! key = None ->
   Storage.get parseText localStorage key defaultValue = (defaultValue, [])) /\
  (localStorage !! key = Some "" ->
   Storage.JSON_parse parseText "" = None /\
   Storage.get parseText localStorage key defaultValue = (defaultValue, [])) /\
  (forall raw, localStorage !! key = Some raw -> raw <> "" ->
   Storage.JSON_parse parseText raw = None ->
   Storage.get parseText localStorage key defaultValue
   = (defaultValue, [Storage.warn "Error parsing" key])) /\
  (forall raw v, localStorage !! key = Some raw ->
   Storage.JSON_parse parseText raw = Some v ->
   Storage.get parseText localStorage key defaultValue = (v, [])).
Proof.
  unfold Storage.get. split; [| split; [| split]].
  - intros ->. reflexivity.
  - intros ->. split; reflexivity.
  - intros raw -> Hne Hp. rewrite Hp. destruct (decide (raw = "")); done.
  - intros raw v -> Hp. rewrite Hp.
    destruct (decide (raw = "")) as [-> |]; [discriminate Hp | reflexivity].
Qed.

Lemma Storage_get_cases_witness :
  ({[ "logs" := "[1," ]} : gmap string string) !! "logs" = Some "[1," /\
  Storage.JSON_parse Storage.parseLiteral "[1," = None /\
  Storage.get Storage.parseLiteral {[ "logs" := "[1," ]} "logs" Storage.JNull
  = (Storage.JNull, [Storage.warn "Error parsing" "logs"]).
Proof.
  split; [reflexivity |]. split; [reflexivity |].
  apply (proj1 (proj2 (proj2 (Storage_get_cases Storage.parseLiteral
            {[ "logs" := "[1," ]} "logs" Storage.JNull))) "[1,");
    [reflexivity | discriminate | reflexivity].
Defined.

(** C9 as stated fails on the empty text: it is stored, it is not valid
    JSON, the default is returned, and nothing is logged. *)
Lemma Storage_get_empty_text_not_logged :
  ({[ "logs" := "" ]} : gmap string string) !! "logs" = Some "" /\
  Storage.JSON_parse Storage.parseLiteral "" = None /\
  Storage.get Storage.parseLiteral {[ "logs" := "" ]} "logs" Storage.JTrue
  = (Storage.JTrue, []) /\
  snd (Storage.get Storage.parseLiteral {[ "logs" := "" ]} "logs" Storage.JTrue)
  <> [Storage.warn "Error parsing" "logs"].
Proof. repeat split; discriminate. Qed.

(** ** Punch-out *)

(** C4.  For every store in which the open-punch map has no entry for the
    acting user dated today (no entry, or one of another date), punch-out
    alerts that no punch-in was found and returns the store as it was: logs,
    open punches, accounts and settings unchanged, no log entry created. *)
Theorem punchOut_without_punchIn (LocalTZA : Z) (currentUser : Account.t)
    (now : Z) (st : Store) :
  (JSObject.getOwn (currentPunch st) (Account.username currentUser) = None \/
   exists r, JSObject.getOwn (currentPunch st) (Account.username currentUser) = Some r
             /\ PunchRecord.date r <> JSDate.isoDate now) ->
  punchOut LocalTZA currentUser now st
  = Some (st, [Alert "No punch in record found for today."]).
Proof.
  intros H. unfold punchOut, JSObject.get.
  destruct H as [-> | (r & -> & Hd)].
  - destruct (JSObject.inPrototype _); reflexivity.
  - destruct (decide (PunchRecord.date r <> JSDate.isoDate now)); done.
Qed.

Lemma punchOut_without_punchIn_witness :
  (exists r, JSObject.getOwn (currentPunch exampleStore) "alice" = Some r /\
             PunchRecord.date r <> JSDate.isoDate (noonUTC 2024 3 22)) /\
  punchOut 0 (Account.mk "alice" "a" employee (Some 10%float) (Some "09:00")
                         (Some "17:00"))
           (noonUTC 2024 3 22) exampleStore
  = Some (exampleStore, [Alert "No punch in record found for today."]).
Proof.
  assert (H : exists r,
             JSObject.getOwn (currentPunch exampleStore) "alice" = Some r /\
             PunchRecord.date r <> JSDate.isoDate (noonUTC 2024 3 22)).
  { exists (PunchRecord.mk "2024-03-21" "08:55"). split; [reflexivity |].
    vm_compute. discriminate. }
  split; [exact H |].
  apply (punchOut_without_punchIn 0
           (Account.mk "alice" "a" employee (Some 10%float) (Some "09:00")
                       (Some "17:00")) (noonUTC 2024 3 22) exampleStore).
  right. exact H.
Defined.

(** ** Deleting an employee *)

Lemma deleteEmployee_confirmed (confirm : string -> bool) (idx : nat)
    (st : Store) (user : Account.t) :
  accounts st !! idx = Some user ->
  confirm ("Delete employee '" ++ Account.username user ++
           "'? This will remove all their logs.") = true ->
  fst (deleteEmployee confirm idx st)
  = {| accounts := base.delete idx (accounts st);
       paySettings := paySettings st;
       logs := filter (fun log => LogEntry.username log ≠ Account.username user)
                      (logs st);
       currentPunch := currentPunch st |}.
Proof. intros Hu Hc. unfold deleteEmployee. rewrite Hu, Hc. reflexivity. Qed.

(** C7.  For every accounts list and logs list, deleting an account removes
    exactly the log entries whose username is that of the deleted account:
    none of its entries is left, and the entries of every other username are
    the same, in the same order. *)
Theorem deleteEmployee_logs (confirm : string -> bool) (idx : nat)
    (st : Store) (user : Account.t) :
  accounts st !! idx = Some user ->
  confirm ("Delete employee '" ++ Account.username user ++
           "'? This will remove all their logs.") = true ->
  let st' := fst (deleteEmployee confirm idx st) in
  logs st' = filter (fun log => LogEntry.username log ≠ Account.username user)
                    (logs st) /\
  (forall log, log ∈ logs st' <->
     log ∈ logs st /\ LogEntry.username log <> Account.username user) /\
  logs st' `sublist_of` logs st /\
  (forall u, u <> Account.username user ->
     filter (fun log => LogEntry.username log = u) (logs st')
     = filter (fun log => LogEntry.username log = u) (logs st)) /\
  accounts st' = base.delete idx (accounts st).
Proof.
  intros Hu Hc st'. subst st'.
  rewrite (deleteEmployee_confirmed _ _ _ _ Hu Hc). cbn [logs accounts].
  split; [reflexivity |]. split.
  { intros log. rewrite list_elem_of_filter. tauto. }
  split; [apply sublist_filter |]. split; [| reflexivity].
  intros u Hne. rewrite list_filter_filter.
  apply list_filter_iff. intros log. split; [tauto |].
  intros ->. split; [reflexivity | assumption].
Qed.

Lemma deleteEmployee_logs_witness :
  let st' := fst (deleteEmployee (fun _ => true) 1 exampleStore) in
  logs st' = [LogEntry.mk "bob" "2024-03-10" "09:00" "17:00" 480 "2024-03-01"] /\
  (forall u, u <> "alice" ->
     filter (fun log => LogEntry.username log = u) (logs st')
     = filter (fun log => LogEntry.username log = u) (logs exampleStore)).
Proof.
  pose proof (deleteEmployee_logs (fun _ => true) 1 exampleStore
                (Account.mk "alice" "a" employee (Some 10%float) (Some "09:00")
                            (Some "17:00")) eq_refl eq_refl) as H.
  cbv zeta in H. destruct H as (H1 & _ & _ & H4 & _).
  split; [rewrite H1; reflexivity | exact H4].
Defined.

(** C10.  For every store, deleting an account leaves the open-punch map as
    it was: an open punch of the deleted user is still there after the
    account and its logs are removed. *)
Theorem deleteEmployee_currentPunch (confirm : string -> bool) (idx : nat)
    (st : Store) :
  let st' := fst (deleteEmployee confirm idx st) in
  currentPunch st' = currentPunch st /\
  (forall user r,
     accounts st !! idx = Some user ->
     JSObject.getOwn (currentPunch st) (Account.username user) = Some r ->
     JSObject.getOwn (currentPunch st') (Account.username user) = Some r).
Proof.
  assert (H : currentPunch (fst (deleteEmployee confirm idx st)) = currentPunch st).
  { unfold deleteEmployee. destruct (accounts st !! idx) as [user |]; [| reflexivity].
    destruct (confirm _); reflexivity. }
  cbv zeta. split; [exact H |]. intros user r _ Hr. rewrite H. exact Hr.
Qed.

Lemma deleteEmployee_currentPunch_witness :
  let st' := fst (deleteEmployee (fun _ => true) 1 exampleStore) in
  accounts st' = [Account.mk "admin" "admin" admin None None None;
                  Account.mk "bob" "b" employee (Some 12.5%float) (Some "22:00")
                             (Some "06:00")] /\
  JSObject.getOwn (currentPunch st') "alice"
  = Some (PunchRecord.mk "2024-03-21" "08:55").
Proof.
  split; [reflexivity |].
  apply (proj2 (deleteEmployee_currentPunch (fun _ => true) 1 exampleStore)
           (Account.mk "alice" "a" employee (Some 10%float) (Some "09:00")
                       (Some "17:00"))); reflexivity.
Defined.

(** ** Saving the pay-period settings *)

Lemma parseDays_elem (input : string) (d : Z) :
  d ∈ parseDays input <->
  (1 <= d <= 31) /\
  exists tok, tok ∈ JS.split "," input /\ JSNumber.parseInt (JS.trim tok) = Some d.
Proof.
  unfold parseDays. rewrite list_elem_of_omap. split.
  - intros (n & Hn & Hd). apply list_elem_of_In, in_map_iff in Hn as (tok & <- & Ht).
    destruct (JSNumber.parseInt (JS.trim tok)) as [d' |] eqn:Hp; [| discriminate Hd].
    cbn in Hd. destruct (validDay d') eqn:Hv; [| discriminate Hd].
    injection Hd as ->. unfold validDay in Hv. split; [lia |].
    exists tok. split; [apply list_elem_of_In; exact Ht | exact Hp].
  - intros (Hr & tok & Ht & Hp). exists (Some d). split.
    + apply list_elem_of_In, in_map_iff. exists tok.
      split; [exact Hp | apply list_elem_of_In; exact Ht].
    + cbn. unfold validDay.
      destruct (Z.leb_spec 1 d), (Z.leb_spec d 31); try lia. reflexivity.
Qed.

(** C5, as the code has it.  The save-pay-settings operation shows the
    validation message and leaves the store as it was exactly when no
    comma-separated token of the trimmed input parses ([parseInt] of the
    trimmed token) to a day from 1 to 31, so an empty set of days is never
    stored.  When some token does, the other tokens are dropped without a
    message, and the days that parse, sorted ascending, replace the stored
    start days; nothing else in the store changes. *)
Theorem savePayPeriod_cases (value : string) (st : Store) :
  let tokens := JS.split "," (JS.trim value) in
  let day tok := JSNumber.parseInt (JS.trim tok) in
  ((forall tok d, tok ∈ tokens -> day tok = Some d -> ~ (1 <= d <= 31)) ->
   savePayPeriod value st
   = (st, [SetText "pay-period-message"
             "Please enter valid day numbers separated by commas."])) /\
  ((exists tok d, tok ∈ tokens /\ day tok = Some d /\ 1 <= d <= 31) ->
   exists days,
     savePayPeriod value st
     = ({| accounts := accounts st; paySettings := PaySettings.mk days;
           logs := logs st; currentPunch := currentPunch st |},
        [SetText "pay-period-message" "Pay period settings saved."]) /\
     days <> [] /\ Sorted Z.le days /\
     (forall d, d ∈ days <->
        (1 <= d <= 31) /\ exists tok, tok ∈ tokens /\ day tok = Some d)).
Proof.
  cbv zeta. unfold savePayPeriod. split.
  - intros Hnone. destruct (parseDays (JS.trim value)) as [| d ds] eqn:Hp;
      [reflexivity |].
    exfalso. assert (Hd : d ∈ parseDays (JS.trim value)) by (rewrite Hp; left).
    apply parseDays_elem in Hd as (Hr & tok & Ht & Hpt).
    exact (Hnone tok d Ht Hpt Hr).
  - intros (tok & d & Ht & Hpt & Hr).
    assert (Hd : d ∈ parseDays (JS.trim value)).
    { apply parseDays_elem. split; [exact Hr | exists tok; split; assumption]. }
    exists (sortNumeric (parseDays (JS.trim value))).
    assert (Hperm : sortNumeric (parseDays (JS.trim value))
                    ≡ₚ parseDays (JS.trim value))
      by apply merge_sort_Permutation.
    split; [| split; [| split]].
    + destruct (parseDays (JS.trim value)); [inversion Hd | reflexivity].
    + intros Hnil. rewrite Hnil in Hperm. symmetry in Hperm.
      apply Permutation_nil_r in Hperm. rewrite Hperm in Hd. inversion Hd.
    + apply Sorted_merge_sort. apply _.
    + intros d'. rewrite Hperm. apply parseDays_elem.
Qed.

Lemma savePayPeriod_cases_witness :
  (exists tok d, tok ∈ JS.split "," (JS.trim " 15, 1 ") /\
                 JSNumber.parseInt (JS.trim tok) = Some d /\ 1 <= d <= 31) /\
  exists days,
    savePayPeriod " 15, 1 " exampleStore
    = ({| accounts := accounts exampleStore; paySettings := PaySettings.mk days;
          logs := logs exampleStore; currentPunch := currentPunch exampleStore |},
       [SetText "pay-period-message" "Pay period settings saved."]) /\
    days <> [] /\ Sorted Z.le days /\
    (forall d, d ∈ days <->
       (1 <= d <= 31) /\
       exists tok, tok ∈ JS.split "," (JS.trim " 15, 1 ") /\
                   JSNumber.parseInt (JS.trim tok) = Some d).
Proof.
  assert (H : exists tok d, tok ∈ JS.split "," (JS.trim " 15, 1 ") /\
                 JSNumber.parseInt (JS.trim tok) = Some d /\ 1 <= d <= 31).
  { exists "15", 15. split; [left | split; [reflexivity | lia]]. }
  split; [exact H |].
  exact (proj2 (savePayPeriod_cases " 15, 1 " exampleStore) H).
Defined.

(** C5 as stated fails: the input ["1,abc"] contains a token that is not a
    number, and ["1,45"] a day outside 1 to 31; both are saved, as the start
    days [[1]], with the message of success. *)
Lemma savePayPeriod_drops_invalid_tokens :
  JSNumber.parseInt "abc" = None /\
  JSNumber.parseInt "45" = Some 45 /\
  savePayPeriod "1,abc" exampleStore
  = ({| accounts := exampleAccounts; paySettings := PaySettings.mk [1];
        logs := exampleLogs; currentPunch := currentPunch exampleStore |},
     [SetText "pay-period-message" "Pay period settings saved."]) /\
  savePayPeriod "1,45" exampleStore = savePayPeriod "1,abc" exampleStore /\
  paySettings (fst (savePayPeriod "1,abc" exampleStore)) <> paySettings exampleStore.
Proof. repeat split. discriminate. Qed.

(** ** Pay periods and the summary at their failing inputs *)

(** C1, where the code fails.  In a zone one hour east of Greenwich, with
    start days 1 and 15, noon of 2024-03-10 (local 13:00) is given the pay
    period start "2024-02-29": the chosen start, local midnight of March 1,
    is February 29, 23:00 in UTC, which is what [toISOString] prints.  The
    claim says "2024-03-01". *)
Theorem getPayPeriodStart_east_of_Greenwich :
  JSDate.getFullYear JSDate.msPerHour (noonUTC 2024 3 10) = 2024 /\
  JSDate.getMonth JSDate.msPerHour (noonUTC 2024 3 10) = 2 /\
  JSDate.getDate JSDate.msPerHour (noonUTC 2024 3 10) = 10 /\
  JSDate.newDate JSDate.msPerHour 2024 2 1
  = Some (JSDate.MakeDate (JSDate.MakeDay 2024 1 29) (23 * JSDate.msPerHour)) /\
  getPayPeriodStart JSDate.msPerHour [1; 15] (noonUTC 2024 3 10)
  = Some "2024-02-29".
Proof. repeat split. Qed.

(** C3, where the code fails.  One log entry of 470 minutes for the
    employee named "constructor": [empMap["constructor"]] is the inherited
    function, not [undefined], so the minutes are appended to its text
    instead of added to 0, and the row reads NaN for the hours and for the
    pay.  The claim says 7.83 hours and 78.33. *)
Theorem generateSummary_inherited_name :
  generateSummary
    [LogEntry.mk "constructor" "2024-03-10" "09:10" "17:30" 470 "2024-03-01"]
    [Account.mk "constructor" "c" employee (Some 10%float) (Some "09:00")
                (Some "17:00")]
  = Some [Row.mk "2024-03-01" "constructor" "NaN" "NaN"] /\
  generateSummary
    [LogEntry.mk "alice" "2024-03-10" "09:10" "17:30" 470 "2024-03-01"]
    [Account.mk "alice" "c" employee (Some 10%float) (Some "09:00")
                (Some "17:00")]
  = Some [Row.mk "2024-03-01" "alice" "7.83" "78.33"].
Proof. split; vm_compute; reflexivity. Qed.

(** ** Calendar arithmetic *)

Import JSDate.


Lemma DayFromYear_succ (y : Z) :
  DayFromYear (y + 1) = DayFromYear y + DaysInYear y.
Proof.
  unfold DayFromYear, DaysInYear, isLeapYear.
  destruct (Z.eqb_spec (y mod 4) 0), (Z.eqb_spec (y mod 100) 0),
    (Z.eqb_spec (y mod 400) 0); cbn [negb];
    Z.div_mod_to_equations; lia.
Qed.

Lemma DayFromYear_estimate (y : Z) :
  146097 * (y - 1970) - 607 < 400 * DayFromYear y < 146097 * (y - 1970) + 593 + 1.
Proof. unfold DayFromYear. Z.div_mod_to_equations. lia. Qed.

Lemma DayFromYear_mono (y1 y2 : Z) :
  y1 <= y2 -> DayFromYear y1 <= DayFromYear y2.
Proof. unfold DayFromYear. intros. Z.div_mod_to_equations. lia. Qed.

Lemma YearFromDay_spec (d : Z) :
  DayFromYear (YearFromDay d) <= d < DayFromYear (YearFromDay d + 1).
Proof.
  unfold YearFromDay.
  set (y := 1970 + d * 400 / 146097).
  assert (Hy : 146097 * (y - 1970) <= 400 * d < 146097 * (y - 1970) + 146097).
  { subst y. Z.div_mod_to_equations. lia. }
  pose proof (DayFromYear_estimate (y - 1)).
  pose proof (DayFromYear_estimate (y + 2)).
  destruct (Z.gtb_spec (DayFromYear y) d).
  - replace (y - 1 + 1) with y by lia. lia.
  - destruct (Z.leb_spec (DayFromYear (y + 1)) d).
    + replace (y + 1 + 1) with (y + 2) by lia. lia.
    + lia.
Qed.

Lemma YearFromDay_unique (d y : Z) :
  DayFromYear y <= d < DayFromYear (y + 1) -> YearFromDay d = y.
Proof.
  intros H. pose proof (YearFromDay_spec d) as Hs.
  destruct (Z.lt_trichotomy (YearFromDay d) y) as [Hlt | [Heq | Hgt]]; [| exact Heq |].
  - pose proof (DayFromYear_mono (YearFromDay d + 1) y). lia.
  - pose proof (DayFromYear_mono (y + 1) (YearFromDay d)). lia.
Qed.


Lemma month_cases (m : Z) :
  0 <= m <= 11 ->
  m = 0 \/ m = 1 \/ m = 2 \/ m = 3 \/ m = 4 \/ m = 5 \/ m = 6 \/ m = 7 \/
  m = 8 \/ m = 9 \/ m = 10 \/ m = 11.
Proof. lia. Qed.

Ltac each_month m H :=
  let Hm := fresh in
  pose proof (month_cases m H) as Hm;
  repeat (destruct Hm as [Hm | Hm]); subst m.

Lemma leapDays_cases (y : Z) :
  leapDays y = 0 /\ isLeapYear y = false \/ leapDays y = 1 /\ isLeapYear y = true.
Proof. unfold leapDays. destruct (isLeapYear y); auto. Qed.

Ltac leap_cases y :=
  let Hl := fresh in
  let Hi := fresh in
  destruct (leapDays_cases y) as [[Hl Hi] | [Hl Hi]];
  rewrite ?Hl, ?Hi in *; clear Hl Hi.

Lemma monthStart_succ (y m : Z) :
  0 <= m <= 11 ->
  monthStart (leapDays y) (m + 1) = monthStart (leapDays y) m + daysInMonth y m.
Proof.
  intros H. each_month m H; cbn; leap_cases y;
    reflexivity.
Qed.

Lemma daysInMonth_bounds (y m : Z) : 28 <= daysInMonth y m <= 31.
Proof.
  unfold daysInMonth. destruct m as [| p | p]; try lia.
  do 4 (try (destruct p as [p | p |]; try lia)); destruct (isLeapYear y); lia.
Qed.

Lemma MakeDay_in_year (y m dd : Z) :
  0 <= m <= 11 ->
  MakeDay y m dd = DayFromYear y + monthStart (leapDays y) m + dd - 1.
Proof.
  intros H. unfold MakeDay.
  replace (m / 12) with 0 by (Z.div_mod_to_equations; lia).
  replace (m mod 12) with m by (Z.div_mod_to_equations; lia).
  rewrite Z.add_0_r. reflexivity.
Qed.

Lemma DaysInYear_leapDays (y : Z) : DaysInYear y = 365 + leapDays y.
Proof. unfold DaysInYear, leapDays. destruct (isLeapYear y); reflexivity. Qed.

(** The fields of the day number of a civil date are the civil date. *)
Lemma fields_MakeDay (y m dd : Z) :
  0 <= m <= 11 -> 1 <= dd <= daysInMonth y m ->
  YearFromDay (MakeDay y m dd) = y /\
  MonthFromDay (MakeDay y m dd) = m /\
  DateFromDay (MakeDay y m dd) = dd.
Proof.
  intros Hm Hd. rewrite MakeDay_in_year by assumption.
  assert (Hy : YearFromDay (DayFromYear y + monthStart (leapDays y) m + dd - 1) = y).
  { apply YearFromDay_unique. rewrite DayFromYear_succ, DaysInYear_leapDays.
    revert Hd. unfold daysInMonth.
    each_month m Hm; cbn [monthStart];
      leap_cases y; lia. }
  split; [exact Hy |].
  unfold DateFromDay, MonthFromDay, DayWithinYear. rewrite Hy.
  replace (DayFromYear y + monthStart (leapDays y) m + dd - 1 - DayFromYear y)
    with (monthStart (leapDays y) m + dd - 1) by lia.
  revert Hd. unfold daysInMonth.
  each_month m Hm; cbn [monthStart];
    leap_cases y; intros Hd;
    repeat match goal with
           | |- context [?a <? ?b] => destruct (Z.ltb_spec a b); try lia
           end; cbn [monthStart]; lia.
Qed.

(** Every day number is the day number of its fields, a civil date. *)
Lemma fields_of_day (d : Z) :
  0 <= MonthFromDay d <= 11 /\
  1 <= DateFromDay d <= daysInMonth (YearFromDay d) (MonthFromDay d) /\
  MakeDay (YearFromDay d) (MonthFromDay d) (DateFromDay d) = d.
Proof.
  pose proof (YearFromDay_spec d) as Hs.
  rewrite DayFromYear_succ, DaysInYear_leapDays in Hs.
  assert (Hm : 0 <= MonthFromDay d <= 11).
  { unfold MonthFromDay.
    repeat match goal with
           | |- context [?a <? ?b] => destruct (Z.ltb_spec a b); try lia
           end. }
  split; [exact Hm |].
  rewrite MakeDay_in_year by exact Hm.
  unfold DateFromDay. split; [| unfold DayWithinYear; lia].
  unfold MonthFromDay, DayWithinYear, daysInMonth in *.
  leap_cases (YearFromDay d);
    repeat match goal with
           | |- context [?a <? ?b] => destruct (Z.ltb_spec a b); try lia
           end; cbn [monthStart]; lia.
Qed.


(** *** The chosen day *)


Lemma isLargest_unique (l : list Z) (c1 c2 : Z) :
  isLargest l c1 -> isLargest l c2 -> c1 = c2.
Proof. intros [H1 M1] [H2 M2]. specialize (M1 _ H2). specialize (M2 _ H1). lia. Qed.

Lemma isLargest_perm (l1 l2 : list Z) (c : Z) :
  l1 ≡ₚ l2 -> isLargest l1 c -> isLargest l2 c.
Proof.
  intros Hp [H M]. split; [rewrite <- Hp; exact H |].
  intros x Hx. apply M. rewrite Hp. exact Hx.
Qed.

Lemma largest_spec (l : list Z) :
  match largest l with
  | Some c => isLargest l c
  | None => l = []
  end.
Proof.
  destruct l as [| x l]; [reflexivity |]. cbn [largest].
  induction l as [| y l IH] in x |- *.
  - split; [left | intros z Hz; apply list_elem_of_singleton in Hz; cbn; lia].
  - cbn [fold_right]. destruct (IH x) as [Hin Hmax]. split.
    + destruct (Z.max_spec y (fold_right Z.max x l)) as [[_ ->] | [_ ->]].
      * apply elem_of_cons in Hin as [-> | Hin]; [left | right; right; exact Hin].
      * right; left.
    + intros z Hz. apply elem_of_cons in Hz as [-> | Hz].
      * specialize (Hmax x ltac:(left)). lia.
      * apply elem_of_cons in Hz as [-> | Hz]; [lia |].
        specialize (Hmax z ltac:(right; exact Hz)). lia.
Qed.

Lemma last_sorted_spec (l : list Z) :
  StronglySorted Z.le l ->
  match last l with
  | Some c => isLargest l c
  | None => l = []
  end.
Proof.
  intros Hs. destruct (last l) as [c |] eqn:Hl; [| apply last_None; exact Hl].
  apply last_Some in Hl as [l' ->]. split; [set_solver |].
  intros x Hx. apply elem_of_app in Hx as [Hx | Hx].
  - apply (StronglySorted_app_1_elem_of Z.le l' [c]); [exact Hs | exact Hx | left].
  - apply list_elem_of_singleton in Hx as ->. lia.
Qed.

Lemma chooseDay_fold (day : Z) (l : list Z) (acc : option Z) :
  fold_left (fun chosen s => if day >=? s then Some s else chosen) l acc
  = match last (filter (fun s => s <= day) l) with
    | Some c => Some c
    | None => acc
    end.
Proof.
  induction l as [| s l IH] in acc |- *; [reflexivity |].
  cbn [fold_left]. rewrite IH, filter_cons.
  destruct (Z.geb_spec day s), (decide (s <= day)); try lia.
  - rewrite last_cons. destruct (last (filter _ l)); reflexivity.
  - reflexivity.
Qed.

Lemma chooseDay_last (day : Z) (l : list Z) :
  chooseDay day l = last (filter (fun s => s <= day) l).
Proof.
  unfold chooseDay. rewrite chooseDay_fold. destruct (last _); reflexivity.
Qed.

Lemma sortNumeric_sorted (l : list Z) : StronglySorted Z.le (sortNumeric l).
Proof. apply StronglySorted_merge_sort; apply _. Qed.

Lemma sortNumeric_perm (l : list Z) : sortNumeric l ≡ₚ l.
Proof. apply merge_sort_Permutation. Qed.

Lemma StronglySorted_filter (P : Z -> Prop) `{!forall x, Decision (P x)} (l : list Z) :
  StronglySorted Z.le l -> StronglySorted Z.le (filter P l).
Proof.
  induction 1 as [| x l Hs IH Hx]; [constructor |].
  rewrite filter_cons. destruct (decide (P x)); [| exact IH].
  constructor; [exact IH |].
  apply Forall_forall. intros y Hy. apply list_elem_of_filter in Hy as [_ Hy].
  rewrite Forall_forall in Hx. apply Hx, Hy.
Qed.

(** The loop on the sorted start days finds what the specification names. *)
Lemma chooseDay_largest (day : Z) (startDays : list Z) :
  chooseDay day (sortNumeric startDays)
  = largest (filter (fun s => s <= day) startDays).
Proof.
  rewrite chooseDay_last.
  assert (Hp : filter (fun s => s <= day) (sortNumeric startDays)
               ≡ₚ filter (fun s => s <= day) startDays)
    by (rewrite sortNumeric_perm; reflexivity).
  pose proof (last_sorted_spec _
    (StronglySorted_filter (fun s => s <= day) _ (sortNumeric_sorted startDays))) as H1.
  pose proof (largest_spec (filter (fun s => s <= day) startDays)) as H2.
  destruct (last _) as [c1 |], (largest _) as [c2 |].
  - f_equal. apply (isLargest_unique _ _ _ (isLargest_perm _ _ _ Hp H1) H2).
  - rewrite H2 in Hp. apply Permutation_nil_r in Hp. destruct H1 as [H1 _].
    rewrite Hp in H1. inversion H1.
  - rewrite H1 in Hp. symmetry in Hp. apply Permutation_nil_r in Hp.
    destruct H2 as [H2 _]. rewrite Hp in H2. inversion H2.
  - reflexivity.
Qed.

Lemma last_sortNumeric (startDays : list Z) :
  last (sortNumeric startDays) = largest startDays.
Proof.
  pose proof (last_sorted_spec _ (sortNumeric_sorted startDays)) as H1.
  pose proof (largest_spec startDays) as H2.
  pose proof (sortNumeric_perm startDays) as Hp.
  destruct (last _) as [c1 |], (largest _) as [c2 |].
  - f_equal. apply (isLargest_unique _ _ _ (isLargest_perm _ _ _ Hp H1) H2).
  - destruct H1 as [H1 _]. rewrite Hp, H2 in H1. inversion H1.
  - rewrite H1 in Hp. symmetry in Hp. apply Permutation_nil_r in Hp.
    destruct H2 as [H2 _]. rewrite Hp in H2. inversion H2.
  - reflexivity.
Qed.

(** *** The first ten code units of an ISO string *)

Lemma length_append (a b : string) :
  String.length (a ++ b) = (String.length a + String.length b)%nat.
Proof.
  induction a as [| c a IH]; [reflexivity |].
  change (String c a ++ b) with (String c (a ++ b)). cbn [String.length].
  rewrite IH. reflexivity.
Qed.

Lemma append_assoc (a b c : string) : (a ++ b) ++ c = a ++ (b ++ c).
Proof.
  induction a as [| x a IH]; [reflexivity |].
  change ((String x a ++ b) ++ c) with (String x ((a ++ b) ++ c)).
  rewrite IH. reflexivity.
Qed.


Lemma slice0_append (a r : string) :
  JS.slice0 (String.length a) (a ++ r) = a.
Proof.
  induction a as [| x a IH]; [destruct r; reflexivity |].
  change (String x a ++ r) with (String x (a ++ r)). cbn [String.length JS.slice0].
  rewrite IH. reflexivity.
Qed.

Lemma length_repeatChar (n : nat) (c : ascii) :
  String.length (JS.repeatChar n c) = n.
Proof. induction n as [| n IH]; cbn; [reflexivity | f_equal; exact IH]. Qed.

Lemma length_padStart (k : nat) (c : ascii) (s : string) :
  (String.length s <= k)%nat -> String.length (JS.padStart k c s) = k.
Proof.
  intros H. unfold JS.padStart. rewrite length_append, length_repeatChar. lia.
Qed.

Lemma length_digits (fuel k : nat) (n : Z) (acc : string) :
  (0 < k <= fuel)%nat -> 0 <= n < 10 ^ Z.of_nat k ->
  (String.length (JS.digits fuel n acc) <= k + String.length acc)%nat.
Proof.
  induction fuel as [| fuel IH] in k, n, acc |- *; [lia |].
  intros Hk Hn. cbn [JS.digits].
  destruct (Z.ltb_spec n 10); [cbn; lia |].
  destruct k as [| [| k]]; [lia | cbn in Hn; lia |].
  etrans; [apply (IH (S k)) |]; [lia | | cbn; lia].
  rewrite Nat2Z.inj_succ, Z.pow_succ_r in Hn by lia.
  Z.div_mod_to_equations. lia.
Qed.

Lemma length_String_ (k : nat) (n : Z) :
  (0 < k <= 22)%nat -> 0 <= n < 10 ^ Z.of_nat k ->
  (String.length (JS.String_ n) <= k)%nat.
Proof.
  intros Hk Hn. unfold JS.String_.
  destruct (Z.ltb_spec n 0); [lia |].
  pose proof (length_digits 22 k n "" Hk Hn) as Hl. cbn [String.length] in Hl. lia.
Qed.

Lemma length_pad2 (n : Z) : 0 <= n <= 99 -> String.length (pad2 n) = 2%nat.
Proof.
  intros H. apply length_padStart, (length_String_ 2); [lia |]. cbn. lia.
Qed.

Lemma length_isoYear (y : Z) : 0 <= y <= 9999 -> String.length (isoYear y) = 4%nat.
Proof.
  intros H. unfold isoYear.
  destruct (Z.leb_spec 0 y), (Z.leb_spec y 9999); try lia. cbn [andb].
  apply length_padStart, (length_String_ 4); [lia |]. cbn. lia.
Qed.

(** The ISO date of a day number whose year has four digits. *)
Lemma isoDate_of_day (t : Z) :
  0 <= YearFromTime t <= 9999 ->
  isoDate t = isoYMD (YearFromTime t, MonthFromTime t, DateFromTime t).
Proof.
  intros Hy. unfold isoDate, toISOString, isoYMD.
  pose proof (fields_of_day (Day t)) as (Hm & Hd & _).
  pose proof (daysInMonth_bounds (YearFromDay (Day t)) (MonthFromDay (Day t))).
  fold (MonthFromTime t) in *. fold (DateFromTime t) in *.
  set (rest := "T" ++ _).
  set (a := isoYear (YearFromTime t)).
  set (b := pad2 (MonthFromTime t + 1)).
  set (c := pad2 (DateFromTime t)).
  replace (a ++ "-" ++ b ++ "-" ++ c ++ rest)
    with ((a ++ "-" ++ b ++ "-" ++ c) ++ rest)
    by (rewrite !append_assoc; reflexivity).
  assert (Hl : String.length (a ++ "-" ++ b ++ "-" ++ c) = 10%nat).
  { rewrite !length_append. subst a b c.
    rewrite length_isoYear, !length_pad2 by lia. reflexivity. }
  rewrite <- Hl. apply slice0_append.
Qed.


(** *** Dates built from local fields, in a zone at or west of Greenwich *)

Lemma MakeDay_day_zero (y m : Z) :
  0 <= m <= 11 -> MakeDay y (m + 1) 0 = MakeDay y m (daysInMonth y m).
Proof.
  intros Hm. destruct (Z.eq_dec m 11) as [-> | Hne].
  - unfold MakeDay. change ((11 + 1) / 12) with 1. change ((11 + 1) mod 12) with 0.
    change (11 / 12) with 0. change (11 mod 12) with 11.
    change (daysInMonth y 11) with 31. cbn [monthStart].
    rewrite !Z.add_0_r, DayFromYear_succ, DaysInYear_leapDays. lia.
  - rewrite !MakeDay_in_year by lia. rewrite monthStart_succ by lia. lia.
Qed.

Lemma MakeDay_bounds (y m dd : Z) :
  100 <= y <= 9999 -> 0 <= m <= 11 -> 1 <= dd <= 31 ->
  -700000 <= MakeDay y m dd <= 3000000.
Proof.
  intros Hy Hm Hd. rewrite MakeDay_in_year by exact Hm.
  pose proof (DayFromYear_estimate y).
  assert (0 <= monthStart (leapDays y) m <= 335).
  { each_month m Hm; cbn [monthStart]; leap_cases y; lia. }
  lia.
Qed.

Section West.
Variable LocalTZA : Z.
Hypothesis zone : - msPerDay < LocalTZA <= 0.

Lemma Day_local_midnight (day : Z) :
  Day (UTC LocalTZA (MakeDate day 0)) = day /\
  Day (LocalTime LocalTZA (UTC LocalTZA (MakeDate day 0))) = day.
Proof.
  unfold Day, UTC, LocalTime, MakeDate, msPerDay in *.
  split; Z.div_mod_to_equations; lia.
Qed.

(** [new Date(y, m, dd)] for a civil date: its local date is [dd], and its
    ISO date is the civil date. *)
Lemma newDate_civil (y m dd : Z) :
  100 <= y <= 9999 -> 0 <= m <= 11 -> 1 <= dd <= daysInMonth y m ->
  exists x, newDate LocalTZA y m dd = Some x /\
            getDate LocalTZA x = dd /\
            isoDate x = isoYMD (y, m, dd).
Proof.
  intros Hy Hm Hd. pose proof (daysInMonth_bounds y m) as Hb.
  pose proof (MakeDay_bounds y m dd Hy Hm ltac:(lia)) as HB.
  destruct (Day_local_midnight (MakeDay y m dd)) as [Hu Hl].
  destruct (fields_MakeDay y m dd Hm Hd) as (Fy & Fm & Fd).
  exists (UTC LocalTZA (MakeDate (MakeDay y m dd) 0)). split; [| split].
  - unfold newDate.
    destruct (Z.leb_spec 0 y), (Z.leb_spec y 99); try lia. cbn [andb].
    unfold TimeClip.
    destruct (Z.leb_spec (Z.abs (UTC LocalTZA (MakeDate (MakeDay y m dd) 0)))
                8640000000000000) as [_ | Hbig]; [reflexivity |].
    unfold UTC, MakeDate, msPerDay in *. lia.
  - unfold getDate, DateFromTime. rewrite Hl. exact Fd.
  - rewrite isoDate_of_day; unfold YearFromTime, MonthFromTime, DateFromTime;
      rewrite Hu, ?Fy, ?Fm, ?Fd; [reflexivity | lia].
Qed.

(** [new Date(y, m + 1, 0).getDate()] is the number of days of month [m]. *)
Lemma newDate_day_zero (y m : Z) :
  100 <= y <= 9999 -> 0 <= m <= 11 ->
  exists x, newDate LocalTZA y (m + 1) 0 = Some x /\
            getDate LocalTZA x = daysInMonth y m.
Proof.
  intros Hy Hm. pose proof (daysInMonth_bounds y m) as Hb.
  destruct (newDate_civil y m (daysInMonth y m) Hy Hm ltac:(lia)) as (x & Hx & Hd & _).
  exists x. split; [| exact Hd].
  rewrite <- Hx. unfold newDate.
  destruct (Z.leb_spec 0 y), (Z.leb_spec y 99); try lia. cbn [andb].
  rewrite MakeDay_day_zero by exact Hm. reflexivity.
Qed.

Lemma getPayPeriodStart_in_zone (startDays : list Z) (dateObj : Z) :
  startDays <> [] ->
  (forall s, s ∈ startDays -> 1 <= s <= 31) ->
  100 < getFullYear LocalTZA dateObj <= 9999 ->
  getPayPeriodStart LocalTZA startDays dateObj
  = isoYMD <$> payPeriodStartSpec startDays (getFullYear LocalTZA dateObj)
                 (getMonth LocalTZA dateObj) (getDate LocalTZA dateObj).
Proof.
  intros Hne Hrange Hyear.
  unfold getPayPeriodStart, payPeriodStartSpec.
  rewrite chooseDay_largest, last_sortNumeric.
  destruct (fields_of_day (Day (LocalTime LocalTZA dateObj))) as (Hm & Hd & _).
  change (MonthFromDay (Day (LocalTime LocalTZA dateObj)))
    with (getMonth LocalTZA dateObj) in Hm, Hd.
  change (DateFromDay (Day (LocalTime LocalTZA dateObj)))
    with (getDate LocalTZA dateObj) in Hd.
  change (YearFromDay (Day (LocalTime LocalTZA dateObj)))
    with (getFullYear LocalTZA dateObj) in Hd.
  generalize dependent (getDate LocalTZA dateObj). intros dd Hd.
  generalize dependent (getMonth LocalTZA dateObj). intros m Hm Hd.
  generalize dependent (getFullYear LocalTZA dateObj). intros y Hyear Hd.
  pose proof (largest_spec (filter (fun s => s <= dd) startDays)) as Hc.
  destruct (largest (filter (fun s => s <= dd) startDays)) as [c |].
  - destruct Hc as [Hc _]. apply list_elem_of_filter in Hc as [Hcd Hc].
    specialize (Hrange c Hc).
    destruct (newDate_day_zero y m ltac:(lia) Hm) as (x & Hn & Hx).
    rewrite Hn. cbn [mbind option_bind]. rewrite Hx.
    destruct (newDate_civil y m (Z.min c (daysInMonth y m)) ltac:(lia) Hm ltac:(lia))
      as (x' & Hn' & _ & Hiso).
    rewrite Hn'. cbn [mbind option_bind fmap option_fmap option_map].
    rewrite Hiso. reflexivity.
  - pose proof (largest_spec startDays) as Hl.
    destruct (largest startDays) as [c |]; [| contradiction].
    destruct Hl as [Hl _]. specialize (Hrange c Hl).
    assert (Hpm : Z.rem (m - 1 + 12) 12 = if m =? 0 then 11 else m - 1).
    { rewrite Z.rem_mod_nonneg by lia.
      destruct (Z.eqb_spec m 0) as [-> |]; [reflexivity |].
      Z.div_mod_to_equations. lia. }
    rewrite Hpm. clear Hpm.
    assert (Hpm' : 0 <= (if m =? 0 then 11 else m - 1) <= 11)
      by (destruct (Z.eqb_spec m 0); lia).
    assert (Hpy : 100 <= (if m =? 0 then y - 1 else y) <= 9999)
      by (destruct (m =? 0); lia).
    generalize dependent (if m =? 0 then y - 1 else y). intros py Hpy.
    generalize dependent (if m =? 0 then 11 else m - 1). intros pm Hpm'.
    pose proof (daysInMonth_bounds py pm) as Hb.
    destruct (newDate_day_zero py pm Hpy Hpm') as (x & Hn & Hx).
    rewrite Hn. cbn [mbind option_bind]. rewrite Hx.
    destruct (newDate_civil py pm (Z.min c (daysInMonth py pm)) Hpy Hpm' ltac:(lia))
      as (x' & Hn' & _ & Hiso).
    rewrite Hn'. cbn [mbind option_bind fmap option_fmap option_map].
    rewrite Hiso. reflexivity.
Qed.
End West.

(** X1.  For a zone at or west of Greenwich, start days from 1 to 31 and a
    local year from 101 to 9999, [getPayPeriodStart] returns the date the
    specification describes: in the month of the date the largest start day
    not after its day, or else the largest start day in the month before,
    clamped to the last day of that month. *)
Theorem getPayPeriodStart_west (LocalTZA : Z) (startDays : list Z) (dateObj : Z) :
  - msPerDay < LocalTZA <= 0 ->
  startDays <> [] ->
  (forall s, s ∈ startDays -> 1 <= s <= 31) ->
  100 < getFullYear LocalTZA dateObj <= 9999 ->
  getPayPeriodStart LocalTZA startDays dateObj
  = isoYMD <$> payPeriodStartSpec startDays (getFullYear LocalTZA dateObj)
                 (getMonth LocalTZA dateObj) (getDate LocalTZA dateObj).
Proof. intros. apply getPayPeriodStart_in_zone; assumption. Qed.

Lemma getPayPeriodStart_west_witness :
  getPayPeriodStart (- 5 * msPerHour) [31; 15] (noonUTC 2024 2 10)
  = isoYMD <$> payPeriodStartSpec [31; 15]
                 (getFullYear (- 5 * msPerHour) (noonUTC 2024 2 10))
                 (getMonth (- 5 * msPerHour) (noonUTC 2024 2 10))
                 (getDate (- 5 * msPerHour) (noonUTC 2024 2 10)).
Proof.
  apply (getPayPeriodStart_west (- 5 * msPerHour)).
  - unfold msPerHour, msPerDay. lia.
  - discriminate.
  - intros s Hs. repeat (apply elem_of_cons in Hs as [-> | Hs]); [lia | lia |].
    inversion Hs.
  - vm_compute. split; [reflexivity | discriminate].
Defined.

Example getPayPeriodStart_west_witness_value :
  getPayPeriodStart (- 5 * msPerHour) [31; 15] (noonUTC 2024 2 10) = Some "2024-01-31".
Proof. vm_compute. reflexivity. Qed.

(** ** The summary for ordinary names *)


(** ** Objects as maps *)

Section Objects.
Context {V : Type}.
Implicit Types (o : JSObject.t V) (k : string) (v : V).

Lemma getOwn_None o k : JSObject.getOwn o k = None <-> k ∉ map fst o.
Proof.
  induction o as [| [k' v'] o IH]; cbn [JSObject.getOwn map fst].
  - split; [intros _; apply not_elem_of_nil | reflexivity].
  - rewrite not_elem_of_cons. destruct (decide (k' = k)) as [-> | Hne].
    + split; [discriminate | intros [H _]; contradiction].
    + rewrite IH. split; [intros H; split; [congruence | exact H] | intros [_ H]; exact H].
Qed.

Lemma getOwn_Some_elem o k v : JSObject.getOwn o k = Some v -> (k, v) ∈ o.
Proof.
  induction o as [| [k' v'] o IH]; cbn [JSObject.getOwn]; [discriminate |].
  destruct (decide (k' = k)) as [-> | Hne].
  - intros [= ->]. left.
  - intros H. right. apply IH, H.
Qed.

Lemma elem_getOwn o k v :
  NoDup (map fst o) -> (k, v) ∈ o -> JSObject.getOwn o k = Some v.
Proof.
  induction o as [| [k' v'] o IH]; cbn [JSObject.getOwn map fst]; intros Hnd Hin.
  - inversion Hin.
  - apply NoDup_cons in Hnd as [Hk Hnd]. apply elem_of_cons in Hin as [[= -> ->] | Hin].
    + destruct (decide (k' = k')); [reflexivity | contradiction].
    + destruct (decide (k' = k)) as [-> | Hne]; [| apply IH; assumption].
      exfalso. apply Hk. apply list_elem_of_In, in_map_iff. exists (k, v).
      split; [reflexivity | apply list_elem_of_In, Hin].
Qed.

Lemma getOwn_update o k v k' :
  JSObject.getOwn (JSObject.update o k v) k'
  = if decide (k' = k) then (fun _ => v) <$> JSObject.getOwn o k else JSObject.getOwn o k'.
Proof.
  induction o as [| [k0 v0] o IH]; cbn [JSObject.update JSObject.getOwn].
  - destruct (decide (k' = k)); reflexivity.
  - destruct (decide (k0 = k)) as [-> | Hne]; cbn [JSObject.getOwn].
    + destruct (decide (k = k')) as [-> | Hne'].
      * destruct (decide (k' = k')); [reflexivity | contradiction].
      * destruct (decide (k' = k)); [congruence | reflexivity].
    + destruct (decide (k0 = k')) as [-> | Hne'].
      * destruct (decide (k' = k)); [congruence | reflexivity].
      * exact IH.
Qed.

Lemma getOwn_snoc o k v k' :
  JSObject.getOwn o k = None ->
  JSObject.getOwn (o ++ [(k, v)])%list k'
  = if decide (k' = k) then Some v else JSObject.getOwn o k'.
Proof.
  intros Hn. induction o as [| [k0 v0] o IH]; cbn [app JSObject.getOwn] in *.
  - destruct (decide (k = k')) as [-> | Hne].
    + destruct (decide (k' = k')); [reflexivity | contradiction].
    + destruct (decide (k' = k)); [congruence | reflexivity].
  - destruct (decide (k0 = k)) as [-> | Hne]; [discriminate Hn |].
    destruct (decide (k0 = k')) as [-> | Hne'].
    + destruct (decide (k' = k)); [congruence | reflexivity].
    + apply IH, Hn.
Qed.

Lemma keys_update o k v : map fst (JSObject.update o k v) = map fst o.
Proof.
  induction o as [| [k0 v0] o IH]; [reflexivity |]. cbn [JSObject.update].
  destruct (decide (k0 = k)); cbn [map fst]; [reflexivity | f_equal; exact IH].
Qed.

(** Reading after writing: unless the name is ["__proto__"] and not an own
    property, [o[k] = v] makes [o[k]] the value [v] and leaves the other
    properties as they were. *)
Lemma getOwn_set o k v k' :
  k <> "__proto__" \/ is_Some (JSObject.getOwn o k) ->
  JSObject.getOwn (JSObject.set o k v) k'
  = if decide (k' = k) then Some v else JSObject.getOwn o k'.
Proof.
  intros H. unfold JSObject.set.
  destruct (JSObject.getOwn o k) as [v0 |] eqn:Hg.
  - rewrite getOwn_update, Hg. reflexivity.
  - destruct H as [H | [? H]]; [| discriminate H].
    destruct (decide (k = "__proto__")); [contradiction |].
    apply getOwn_snoc, Hg.
Qed.

Lemma keys_set o k v :
  k <> "__proto__" \/ is_Some (JSObject.getOwn o k) ->
  map fst (JSObject.set o k v)
  = match JSObject.getOwn o k with
    | Some _ => map fst o
    | None => (map fst o ++ [k])%list
    end.
Proof.
  intros H. unfold JSObject.set.
  destruct (JSObject.getOwn o k) as [v0 |] eqn:Hg.
  - apply keys_update.
  - destruct H as [H | [? H]]; [| discriminate H].
    destruct (decide (k = "__proto__")); [contradiction |].
    rewrite map_app. reflexivity.
Qed.

Lemma NoDup_keys_set o k v :
  k <> "__proto__" \/ is_Some (JSObject.getOwn o k) ->
  NoDup (map fst o) -> NoDup (map fst (JSObject.set o k v)).
Proof.
  intros H Hnd. rewrite keys_set by exact H.
  destruct (JSObject.getOwn o k) eqn:Hg; [exact Hnd |].
  apply NoDup_app. split; [exact Hnd |]. split; [| apply NoDup_singleton].
  intros x Hx Hx'. apply list_elem_of_singleton in Hx' as ->.
  apply getOwn_None in Hg. contradiction.
Qed.

Lemma set_nonempty o k v :
  k <> "__proto__" \/ is_Some (JSObject.getOwn o k) -> JSObject.set o k v <> [].
Proof.
  intros H Hnil. pose proof (getOwn_set o k v k H) as Hg.
  rewrite Hnil in Hg. destruct (decide (k = k)); [discriminate Hg | contradiction].
Qed.
End Objects.

Lemma inPrototype_proto k : JSObject.inPrototype k = false -> k <> "__proto__".
Proof. intros H ->. discriminate H. Qed.


(** ** The summary map *)

Lemma totalMinutes_snoc (logs : list LogEntry.t) (log : LogEntry.t) (p u : string) :
  totalMinutes (logs ++ [log]) p u
  = totalMinutes logs p u
    + (if decide (LogEntry.payPeriodStart log = p /\ LogEntry.username log = u)
       then LogEntry.minutesWorked log else 0).
Proof.
  unfold totalMinutes. rewrite filter_app, foldr_app.
  set (P := fun log0 => LogEntry.payPeriodStart log0 = p /\ LogEntry.username log0 = u).
  assert (Hshift : forall (l : list LogEntry.t) (a : Z),
            foldr (fun log0 acc => LogEntry.minutesWorked log0 + acc) a l
            = foldr (fun log0 acc => LogEntry.minutesWorked log0 + acc) 0 l + a).
  { induction l as [| x l IH]; intros a; cbn [foldr]; [lia |]. rewrite IH. lia. }
  rewrite Hshift. f_equal.
  rewrite filter_cons, filter_nil. fold (P log).
  destruct (decide (P log)); cbn [foldr]; lia.
Qed.

Lemma hasEntry_snoc (logs : list LogEntry.t) (log : LogEntry.t) (p u : string) :
  hasEntry (logs ++ [log]) p u
  <-> hasEntry logs p u \/ (LogEntry.payPeriodStart log = p /\ LogEntry.username log = u).
Proof.
  unfold hasEntry. split.
  - intros (l & Hl & Hp & Hu). apply elem_of_app in Hl as [Hl | Hl].
    + left. exists l. auto.
    + apply list_elem_of_singleton in Hl as ->. right. auto.
  - intros [(l & Hl & Hp & Hu) | [Hp Hu]].
    + exists l. split; [apply elem_of_app; left; exact Hl | auto].
    + exists log. split; [apply elem_of_app; right; left | auto].
Qed.

Lemma totalMinutes_no_entry (logs : list LogEntry.t) (p u : string) :
  ~ hasEntry logs p u -> totalMinutes logs p u = 0.
Proof.
  intros H. unfold totalMinutes.
  induction logs as [| log logs IH]; [reflexivity |].
  rewrite filter_cons.
  destruct (decide (LogEntry.payPeriodStart log = p /\ LogEntry.username log = u))
    as [[Hp Hu] | _].
  - exfalso. apply H. exists log. split; [left | auto].
  - apply IH. intros (l & Hl & Hpu). apply H. exists l. split; [right; exact Hl | exact Hpu].
Qed.

Lemma get_getOwn {V : Type} (o : JSObject.t V) (k : string) :
  JSObject.inPrototype k = false ->
  JSObject.get o k = match JSObject.getOwn o k with
                     | Some v => JSObject.Own v
                     | None => JSObject.Undefined
                     end.
Proof. intros H. unfold JSObject.get. rewrite H. reflexivity. Qed.

Lemma tally_spec (e : JSObject.t Cell) (log : LogEntry.t) :
  JSObject.inPrototype (LogEntry.username log) = false ->
  (forall c, JSObject.getOwn e (LogEntry.username log) = Some c -> exists n, c = CNum n) ->
  (forall u', JSObject.getOwn (tally e log) u'
     = if decide (u' = LogEntry.username log)
       then Some (CNum (cellMinutes (JSObject.getOwn e (LogEntry.username log))
                        + LogEntry.minutesWorked log))
       else JSObject.getOwn e u') /\
  (NoDup (map fst e) -> NoDup (map fst (tally e log))) /\
  tally e log <> [].
Proof.
  intros Hu Hnum. pose proof (inPrototype_proto _ Hu) as Hproto.
  unfold tally. set (u := LogEntry.username log) in *.
  set (m := LogEntry.minutesWorked log).
  set (e1 := if cellFalsy (JSObject.get e u) then JSObject.set e u (CNum 0) else e).
  assert (H1 : JSObject.getOwn e1 u = Some (CNum (cellMinutes (JSObject.getOwn e u))) /\
               (forall u', u' <> u -> JSObject.getOwn e1 u' = JSObject.getOwn e u') /\
               (NoDup (map fst e) -> NoDup (map fst e1))).
  { subst e1. rewrite get_getOwn by exact Hu.
    destruct (JSObject.getOwn e u) as [c |] eqn:Hg.
    - destruct (Hnum c eq_refl) as [n ->]. cbn [cellFalsy cellMinutes].
      destruct (Z.eqb_spec n 0) as [-> | Hn].
      + split; [| split].
        * rewrite getOwn_set by (left; exact Hproto).
          destruct (decide (u = u)); [reflexivity | contradiction].
        * intros u' Hne. rewrite getOwn_set by (left; exact Hproto).
          destruct (decide (u' = u)); [contradiction | reflexivity].
        * apply NoDup_keys_set. left; exact Hproto.
      + split; [exact Hg | split; [reflexivity | auto]].
    - cbn [cellFalsy cellMinutes]. split; [| split].
      + rewrite getOwn_set by (left; exact Hproto).
        destruct (decide (u = u)); [reflexivity | contradiction].
      + intros u' Hne. rewrite getOwn_set by (left; exact Hproto).
        destruct (decide (u' = u)); [contradiction | reflexivity].
      + apply NoDup_keys_set. left; exact Hproto. }
  destruct H1 as (Hown & Hother & Hnd).
  rewrite (get_getOwn e1 u Hu), Hown. cbn [addMinutes]. split; [| split].
  - intros u'. rewrite getOwn_set by (left; exact Hproto).
    destruct (decide (u' = u)); [reflexivity | apply Hother; assumption].
  - intros H. apply NoDup_keys_set; [left; exact Hproto | apply Hnd, H].
  - apply set_nonempty. left; exact Hproto.
Qed.


Lemma summaryStep_getOwn (sm : JSObject.t (JSObject.t Cell)) (log : LogEntry.t) :
  JSObject.inPrototype (LogEntry.payPeriodStart log) = false ->
  let p := LogEntry.payPeriodStart log in
  let e0 := default [] (JSObject.getOwn sm p) in
  exists sm', summaryStep sm log = Some sm' /\
    (forall p', JSObject.getOwn sm' p'
       = if decide (p' = p) then Some (tally e0 log) else JSObject.getOwn sm p') /\
    (NoDup (map fst sm) -> NoDup (map fst sm')).
Proof.
  intros Hp. pose proof (inPrototype_proto _ Hp) as Hproto. cbv zeta.
  unfold summaryStep. set (p := LogEntry.payPeriodStart log) in *.
  rewrite (get_getOwn sm p Hp).
  destruct (JSObject.getOwn sm p) as [e |] eqn:Hg; cbn [default].
  - rewrite (get_getOwn sm p Hp), Hg. eexists. split; [reflexivity |]. split.
    + intros p'. apply getOwn_set. left; exact Hproto.
    + apply NoDup_keys_set. left; exact Hproto.
  - assert (H1 : JSObject.getOwn (JSObject.set sm p []) p = Some []).
    { rewrite getOwn_set by (left; exact Hproto).
      destruct (decide (p = p)); [reflexivity | contradiction]. }
    rewrite (get_getOwn _ p Hp), H1. eexists. split; [reflexivity |]. split.
    + intros p'. rewrite !getOwn_set by (left; exact Hproto).
      destruct (decide (p' = p)); [reflexivity |]. reflexivity.
    + intros H. do 2 (apply NoDup_keys_set; [left; exact Hproto |]). exact H.
Qed.

Lemma summaryCell_default (sm : JSObject.t (JSObject.t Cell)) (p u : string) :
  summaryCell sm p u = JSObject.getOwn (default [] (JSObject.getOwn sm p)) u.
Proof. unfold summaryCell. destruct (JSObject.getOwn sm p); reflexivity. Qed.

(** One turn of the loop keeps the invariant, for an entry whose period and
    user name no member of [Object.prototype]. *)
Lemma summaryStep_inv (logs : list LogEntry.t) (sm : JSObject.t (JSObject.t Cell))
    (log : LogEntry.t) :
  summaryInv logs sm ->
  JSObject.inPrototype (LogEntry.username log) = false ->
  JSObject.inPrototype (LogEntry.payPeriodStart log) = false ->
  exists sm', summaryStep sm log = Some sm' /\ summaryInv (logs ++ [log]) sm'.
Proof.
  intros (Hnd & Hemp & Hcell & Hall) Hu Hp.
  destruct (summaryStep_getOwn sm log Hp) as (sm' & Hstep & Hget & Hnd').
  set (p := LogEntry.payPeriodStart log) in *.
  set (u := LogEntry.username log) in *.
  assert (Hsc : forall u', JSObject.getOwn (default [] (JSObject.getOwn sm p)) u'
                        = summaryCell sm p u')
    by (intros; symmetry; apply summaryCell_default).
  assert (Hnd0 : NoDup (map fst (default [] (JSObject.getOwn sm p)))).
  { destruct (JSObject.getOwn sm p) as [e |] eqn:Hg; cbn [default].
    - apply (Hemp p e Hg). - apply NoDup_nil_2. }
  generalize dependent (default [] (JSObject.getOwn sm p)). intros e0 Hget Hsc Hnd0.
  assert (He0 : forall c, JSObject.getOwn e0 u = Some c -> exists n, c = CNum n).
  { intros c Hc. rewrite Hsc in Hc.
    destruct (Hcell _ _ _ Hc) as [_ ->]. eauto. }
  destruct (tally_spec e0 log Hu He0) as (Htget & Htnd & Htne).
  fold u in Htget.
  assert (Hcell' : forall p' u', summaryCell sm' p' u'
            = if decide (p' = p /\ u' = u)
              then Some (CNum (cellMinutes (summaryCell sm p u)
                               + LogEntry.minutesWorked log))
              else summaryCell sm p' u').
  { intros p' u'. unfold summaryCell at 1. rewrite Hget.
    destruct (decide (p' = p)) as [-> | Hne]; cbn [mbind option_bind].
    - rewrite Htget, !Hsc.
      destruct (decide (u' = u)) as [-> | Hne'].
      + destruct (decide (p = p /\ u = u)) as [_ | []]; auto.
      + destruct (decide (p = p /\ u' = u)) as [[_ ?] |]; [contradiction | reflexivity].
    - destruct (decide (p' = p /\ u' = u)) as [[? _] |]; [contradiction | reflexivity]. }
  exists sm'. split; [exact Hstep |]. split; [| split; [| split]].
  - apply Hnd', Hnd.
  - intros p' e' He'. rewrite Hget in He'.
    destruct (decide (p' = p)) as [-> | Hne]; [| apply (Hemp p' e' He')].
    injection He' as <-. split; [exact Htne |]. apply Htnd, Hnd0.
  - intros p' u' c Hc. rewrite Hcell' in Hc. rewrite hasEntry_snoc, totalMinutes_snoc.
    fold p u. destruct (decide (p' = p /\ u' = u)) as [[-> ->] | Hne].
    + destruct (decide (p = p /\ u = u)) as [_ | []]; [| auto].
      split; [right; auto |]. injection Hc as <-. f_equal. f_equal.
      destruct (summaryCell sm p u) as [c0 |] eqn:Hc0.
      * destruct (Hcell _ _ _ Hc0) as [_ ->]. reflexivity.
      * cbn [cellMinutes]. symmetry. apply totalMinutes_no_entry.
        intros He. destruct (Hall _ _ He) as [? Hs]. congruence.
    + destruct (decide (p = p' /\ u = u')) as [[-> ->] |]; [exfalso; apply Hne; auto |].
      destruct (Hcell _ _ _ Hc) as [He ->]. split; [left; exact He | f_equal; lia].
  - intros p' u' He. rewrite Hcell'.
    destruct (decide (p' = p /\ u' = u)) as [_ | Hne]; [eauto |].
    apply hasEntry_snoc in He as [He | [<- <-]]; [apply Hall, He |].
    exfalso. apply Hne. auto.
Qed.

Lemma summaryInv_nil : summaryInv [] [].
Proof.
  split; [apply NoDup_nil_2 |]. split; [discriminate |]. split; [discriminate |].
  intros p u (l & Hl & _). inversion Hl.
Qed.

(** The loop of [generateSummary] ends, with the invariant. *)
Lemma buildSummaryMap_inv (logs : list LogEntry.t) :
  (forall log, log ∈ logs ->
     JSObject.inPrototype (LogEntry.username log) = false /\
     JSObject.inPrototype (LogEntry.payPeriodStart log) = false) ->
  exists sm, buildSummaryMap logs = Some sm /\ summaryInv logs sm.
Proof.
  unfold buildSummaryMap.
  induction logs as [| log logs IH] using rev_ind; intros Hnames.
  - exists []. split; [reflexivity | apply summaryInv_nil].
  - destruct IH as (sm & Hsm & Hinv).
    { intros l Hl. apply Hnames, elem_of_app. left; exact Hl. }
    rewrite foldl_snoc, Hsm. cbn [mbind option_bind].
    destruct (Hnames log) as [Hu Hp]; [apply elem_of_app; right; left |].
    apply (summaryStep_inv logs sm log Hinv Hu Hp).
Qed.


(** ** The rows of the summary *)

Lemma keys_perm {V : Type} (o : JSObject.t V) : JSObject.keys o ≡ₚ map fst o.
Proof.
  unfold JSObject.keys. generalize (map fst o). intros ks.
  rewrite (merge_sort_Permutation JSObject.indexLe).
  induction ks as [| k ks IH]; [reflexivity |].
  cbn [omap list_omap]. rewrite filter_cons.
  destruct (JSObject.arrayIndex k) as [i |] eqn:Hi; cbn [fmap option_fmap option_map].
  - destruct (decide (Some i = None)); [discriminate |].
    cbn [map snd app]. constructor. exact IH.
  - destruct (decide (None = None)); [| contradiction].
    rewrite <- Permutation_middle. constructor. exact IH.
Qed.

Lemma elem_keys {V : Type} (o : JSObject.t V) (k : string) :
  k ∈ JSObject.keys o <-> is_Some (JSObject.getOwn o k).
Proof.
  rewrite keys_perm. destruct (JSObject.getOwn o k) eqn:Hg.
  - split; [eauto |]. intros _. apply getOwn_Some_elem in Hg.
    apply list_elem_of_In, in_map_iff. exists (k, v).
    split; [reflexivity | apply list_elem_of_In, Hg].
  - apply getOwn_None in Hg. split; [contradiction | intros [? H]; discriminate H].
Qed.

Lemma NoDup_keys {V : Type} (o : JSObject.t V) :
  NoDup (map fst o) -> NoDup (JSObject.keys o).
Proof. rewrite keys_perm. auto. Qed.

Lemma summaryRow_key (accounts : list Account.t) (p u : string) (c : Cell) (r : Row.t) :
  summaryRow accounts p u c = Some r ->
  rowKey r = (p, u) /\
  formatHours (cellNumber c) = Some (Row.totalHours r) /\
  JSNumber.toFixed2 (cellNumber c / 60 * rateOf accounts u)%float
  = Some (Row.totalPay r).
Proof.
  unfold summaryRow.
  destruct (JSNumber.toFixed2 _) as [pay |]; [| discriminate].
  cbn [mbind option_bind].
  destruct (formatHours _) as [hours |]; [| discriminate].
  intros [= <-]. auto.
Qed.

Section Rows.
Variable accounts : list Account.t.
Variable sm : JSObject.t (JSObject.t Cell).

Lemma periodRows_Forall2 (p : string) (e : JSObject.t Cell) (us : list string)
    (rs : list Row.t) :
  JSObject.getOwn sm p = Some e ->
  mapM (fun user => JSObject.getOwn e user ≫= summaryRow accounts p user) us = Some rs ->
  Forall2 (rowOf accounts sm) (map (pair p) us) rs.
Proof.
  intros He H. apply mapM_Some in H.
  induction H as [| u r us rs Hr _ IH]; cbn [map]; constructor; [| exact IH].
  destruct (JSObject.getOwn e u) as [c |] eqn:Hc; [| discriminate Hr].
  exists c. unfold summaryCell. cbn [fst snd]. rewrite He. cbn [mbind option_bind].
  auto.
Qed.

Lemma summaryRows_Forall2 (ps : list string) (rss : list (list Row.t)) :
  mapM (fun period => JSObject.getOwn sm period ≫= periodRows accounts period) ps
  = Some rss ->
  Forall2 (rowOf accounts sm)
    (List.concat (map (fun p => map (pair p)
                    (JSObject.keys (default [] (JSObject.getOwn sm p)))) ps))
    (List.concat rss).
Proof.
  intros H. apply mapM_Some in H.
  induction H as [| p rs ps rss Hr _ IH]; cbn [map List.concat]; [constructor |].
  apply Forall2_app; [| exact IH].
  destruct (JSObject.getOwn sm p) as [e |] eqn:He; [| discriminate Hr].
  cbn [default]. apply (periodRows_Forall2 p e _ rs He Hr).
Qed.

Lemma summaryRows_is_Some (ps : list string) :
  (forall p, p ∈ ps -> is_Some (JSObject.getOwn sm p)) ->
  (forall p u c, summaryCell sm p u = Some c -> is_Some (summaryRow accounts p u c)) ->
  is_Some (mapM (fun period => JSObject.getOwn sm period ≫= periodRows accounts period) ps).
Proof.
  intros Hps Hrow. apply mapM_is_Some, Forall_forall. intros p Hp. cbn [compose].
  destruct (Hps p Hp) as [e He]. rewrite He. cbn [mbind option_bind].
  unfold periodRows. apply mapM_is_Some, Forall_forall. intros u Hu. cbn [compose].
  apply elem_keys in Hu as [c Hc]. rewrite Hc. cbn [mbind option_bind].
  apply Hrow. unfold summaryCell. rewrite He. exact Hc.
Qed.
End Rows.

Lemma Forall2_rowOf_keys (accounts : list Account.t) (sm : JSObject.t (JSObject.t Cell))
    (pus : list (string * string)) (rows : list Row.t) :
  Forall2 (rowOf accounts sm) pus rows -> map rowKey rows = pus.
Proof.
  induction 1 as [| [p u] r pus rows (c & _ & Hr) _ IH]; [reflexivity |].
  cbn [map]. rewrite IH. f_equal. apply (summaryRow_key _ _ _ _ _ Hr).
Qed.


Section Pairs.
Context {A B : Type}.
Variable f : A -> list B.

Lemma elem_concat_pairs (ps : list A) (p : A) (u : B) :
  (p, u) ∈ List.concat (map (fun p => map (pair p) (f p)) ps) <-> p ∈ ps /\ u ∈ f p.
Proof.
  induction ps as [| q ps IH]; cbn [map List.concat].
  - split; [intros H; inversion H | intros [H _]; inversion H].
  - rewrite elem_of_app, IH, elem_of_cons. split.
    + intros [H | [H1 H2]]; [| auto].
      apply list_elem_of_In, in_map_iff in H as (u' & [= <- <-] & Hu).
      split; [left; reflexivity | apply list_elem_of_In, Hu].
    + intros [[-> | Hp] Hu]; [left | right; auto].
      apply list_elem_of_In, in_map_iff. exists u.
      split; [reflexivity | apply list_elem_of_In, Hu].
Qed.

Lemma NoDup_concat_pairs (ps : list A) :
  NoDup ps -> (forall p, NoDup (f p)) ->
  NoDup (List.concat (map (fun p => map (pair p) (f p)) ps)).
Proof.
  intros Hps Hf. induction Hps as [| q ps Hq _ IH]; cbn [map List.concat].
  - apply NoDup_nil_2.
  - apply NoDup_app. split; [| split; [| exact IH]].
    + apply (NoDup_fmap_2 (pair q)), Hf.
    + intros [p u] H1 H2. apply elem_concat_pairs in H2 as [Hp _].
      apply list_elem_of_In, in_map_iff in H1 as (u' & [= <- <-] & _). contradiction.
Qed.
End Pairs.

Lemma StronglySorted_concat_pairs {B : Type} (f : string -> list B) (ps : list string) :
  StronglySorted String.le ps ->
  StronglySorted String.le
    (map fst (List.concat (map (fun p => map (pair p) (f p)) ps))).
Proof.
  induction 1 as [| q ps _ IH Hq]; cbn [map List.concat]; [constructor |].
  rewrite map_app. apply StronglySorted_app_2; [| | exact IH].
  - intros x1 x2 H1 H2.
    apply list_elem_of_In, in_map_iff in H1 as ([p1 u1] & <- & H1).
    apply in_map_iff in H1 as (? & [= <- <-] & _).
    apply list_elem_of_In, in_map_iff in H2 as ([p2 u2] & <- & H2).
    apply list_elem_of_In, elem_concat_pairs in H2 as [H2 _]. cbn [fst].
    rewrite Forall_forall in Hq. apply Hq, H2.
  - rewrite map_map. cbn [fst]. induction (f q) as [| b bs IHb]; cbn [map]; constructor;
      [exact IHb |].
    apply Forall_forall. intros x Hx.
    apply list_elem_of_In, in_map_iff in Hx as (? & <- & _). reflexivity.
Qed.

Lemma sortStrings_sorted (l : list string) : StronglySorted String.le (sortStrings l).
Proof. apply StronglySorted_merge_sort; apply _. Qed.

Lemma sortStrings_perm (l : list string) : sortStrings l ≡ₚ l.
Proof. apply merge_sort_Permutation. Qed.

Section Summary.
Variable logs : list LogEntry.t.
Variable sm : JSObject.t (JSObject.t Cell).
Hypothesis inv : summaryInv logs sm.

Lemma summaryCell_hasEntry (p u : string) :
  is_Some (summaryCell sm p u) <-> hasEntry logs p u.
Proof.
  destruct inv as (_ & _ & Hcell & Hall). split; [| apply Hall].
  intros [c Hc]. apply (Hcell _ _ _ Hc).
Qed.

Lemma summaryPairs_elem (p u : string) :
  (p, u) ∈ summaryPairs sm <-> hasEntry logs p u.
Proof.
  unfold summaryPairs. rewrite elem_concat_pairs, sortStrings_perm, !elem_keys.
  rewrite <- summaryCell_hasEntry, summaryCell_default. split; [intros [_ H]; exact H |].
  intros H. split; [| exact H].
  destruct (JSObject.getOwn sm p); [eauto |]. destruct H as [? H]. discriminate H.
Qed.

Lemma summaryPairs_NoDup : NoDup (summaryPairs sm).
Proof.
  destruct inv as (Hnd & Hemp & _). unfold summaryPairs. apply NoDup_concat_pairs.
  - rewrite sortStrings_perm. apply NoDup_keys, Hnd.
  - intros p. apply NoDup_keys.
    destruct (JSObject.getOwn sm p) as [e |] eqn:He; cbn [default];
      [apply (Hemp p e He) | apply NoDup_nil_2].
Qed.

Lemma summaryPairs_sorted : StronglySorted String.le (map fst (summaryPairs sm)).
Proof. apply StronglySorted_concat_pairs, sortStrings_sorted. Qed.
End Summary.


Lemma Forall2_elem_r {A B : Type} (P : A -> B -> Prop) (l : list A) (k : list B)
    (y : B) :
  Forall2 P l k -> y ∈ k -> exists x, x ∈ l /\ P x y.
Proof.
  induction 1 as [| x y' l k HP _ IH]; intros Hy; [inversion Hy |].
  apply elem_of_cons in Hy as [-> | Hy].
  - exists x. split; [left | exact HP].
  - destruct (IH Hy) as (x' & Hx' & HP'). exists x'. split; [right; exact Hx' | exact HP'].
Qed.

Lemma Forall2_elem_l {A B : Type} (P : A -> B -> Prop) (l : list A) (k : list B)
    (x : A) :
  Forall2 P l k -> x ∈ l -> exists y, y ∈ k /\ P x y.
Proof.
  induction 1 as [| x' y l k HP _ IH]; intros Hx; [inversion Hx |].
  apply elem_of_cons in Hx as [-> | Hx].
  - exists y. split; [left | exact HP].
  - destruct (IH Hx) as (y' & Hy' & HP'). exists y'. split; [right; exact Hy' | exact HP'].
Qed.

Lemma generateSummary_rowOf (logs : list LogEntry.t) (accounts : list Account.t)
    (sm : JSObject.t (JSObject.t Cell)) (rows : list Row.t) :
  buildSummaryMap logs = Some sm ->
  generateSummary logs accounts = Some rows ->
  Forall2 (rowOf accounts sm) (summaryPairs sm) rows.
Proof.
  intros Hsm H. unfold generateSummary in H. rewrite Hsm in H.
  cbn [mbind option_bind] in H.
  destruct (mapM _ _) as [rss |] eqn:Hrss; [| discriminate H].
  injection H as <-. apply summaryRows_Forall2, Hrss.
Qed.



(** ** Clock strings the code prints *)

Lemma pad2_digits (n : Z) :
  0 <= n <= 59 ->
  exists a b, pad2 n = String a (String b EmptyString) /\
              JS.isDigit a = true /\ JS.isDigit b = true /\
              10 * JS.digitValue a + JS.digitValue b = n.
Proof.
  intros H. replace n with (Z.of_nat (Z.to_nat n)) by lia.
  assert (Hk : (Z.to_nat n < 60)%nat) by lia. revert Hk.
  generalize (Z.to_nat n). intros k Hk.
  do 60 (destruct k as [| k];
         [eexists _, _; split; [reflexivity | repeat split; reflexivity] |]).
  lia.
Qed.

Lemma timeToMinutes_pads (h m : Z) :
  0 <= h <= 59 -> 0 <= m <= 59 ->
  timeToMinutes (pad2 h ++ ":" ++ pad2 m) = Some (h * 60 + m).
Proof.
  intros Hh Hm.
  destruct (pad2_digits h Hh) as (a & b & -> & Ha & Hb & <-).
  destruct (pad2_digits m Hm) as (c & d & -> & Hc & Hd & <-).
  apply (timeToMinutes_clock a b c d Ha Hb Hc Hd).
Qed.

Lemma isClock_pads (h m : Z) :
  0 <= h <= 23 -> 0 <= m <= 59 -> isClock (pad2 h ++ ":" ++ pad2 m) = true.
Proof.
  intros Hh Hm.
  destruct (pad2_digits h ltac:(lia)) as (a & b & -> & Ha & Hb & Hab).
  destruct (pad2_digits m Hm) as (c & d & -> & Hc & Hd & Hcd).
  change (isClock (String a (String b (String ":" (String c (String d EmptyString)))))
          = true).
  cbn [isClock]. rewrite Ha, Hb, Hc, Hd, Hab, Hcd. cbn [andb].
  destruct (Z.leb_spec h 23), (Z.leb_spec m 59); reflexivity || lia.
Qed.

(** X3.  The other round trip: for every minute of the day, [minutesToTime]
    prints a valid clock string, and [timeToMinutes] reads the minute back
    from it. *)
Theorem timeToMinutes_minutesToTime (mins : Z) :
  0 <= mins < 1440 ->
  isClock (minutesToTime mins) = true /\
  timeToMinutes (minutesToTime mins) = Some mins.
Proof.
  intros H.
  assert (Hh : 0 <= mins / 60 <= 23) by (Z.div_mod_to_equations; lia).
  assert (Hm : 0 <= mins mod 60 <= 59) by (Z.div_mod_to_equations; lia).
  assert (E : minutesToTime mins = pad2 (mins / 60) ++ ":" ++ pad2 (mins mod 60)).
  { unfold minutesToTime. rewrite Z.rem_mod_nonneg by lia. reflexivity. }
  rewrite E. split; [apply isClock_pads; assumption |].
  rewrite timeToMinutes_pads by lia.
  replace (mins / 60 * 60 + mins mod 60) with mins by (Z.div_mod_to_equations; lia).
  reflexivity.
Qed.

Lemma timeToMinutes_minutesToTime_witness :
  isClock (minutesToTime 1439) = true /\
  timeToMinutes (minutesToTime 1439) = Some 1439.
Proof. apply (timeToMinutes_minutesToTime 1439). lia. Defined.

(** The local clock string of a date is read back as the minute of its
    day. *)
Lemma timeToMinutes_toTimeString5 (LocalTZA t : Z) :
  timeToMinutes (toTimeString5 LocalTZA t)
  = Some (HourFromTime (LocalTime LocalTZA t) * 60
          + MinFromTime (LocalTime LocalTZA t)).
Proof.
  unfold toTimeString5. apply timeToMinutes_pads.
  - unfold HourFromTime. Z.div_mod_to_equations. lia.
  - unfold MinFromTime. Z.div_mod_to_equations. lia.
Qed.

(** ** The policy of worked minutes *)

(** X4.  Arriving before the scheduled start counts as arriving on time;
    leaving after the scheduled end counts as leaving at the end; leaving
    later never lowers the result and arriving later never raises it. *)
Theorem computeWorkedMinutes_policy (s1 s2 s3 s4 : string) (ss se ai ao : Z) :
  timeToMinutes s1 = Some ss -> timeToMinutes s2 = Some se ->
  timeToMinutes s3 = Some ai -> timeToMinutes s4 = Some ao ->
  (ai <= ss ->
   computeWorkedMinutes s1 s2 s3 s4 = computeWorkedMinutes s1 s2 s1 s4) /\
  (se <= ao ->
   computeWorkedMinutes s1 s2 s3 s4 = computeWorkedMinutes s1 s2 s3 s2) /\
  (forall s4' ao', timeToMinutes s4' = Some ao' -> ao <= ao' ->
   exists r r', computeWorkedMinutes s1 s2 s3 s4 = Some r /\
                computeWorkedMinutes s1 s2 s3 s4' = Some r' /\ r <= r') /\
  (forall s3' ai', timeToMinutes s3' = Some ai' -> ai <= ai' ->
   exists r r', computeWorkedMinutes s1 s2 s3 s4 = Some r /\
                computeWorkedMinutes s1 s2 s3' s4 = Some r' /\ r' <= r).
Proof.
  intros H1 H2 H3 H4.
  rewrite (computeWorkedMinutes_Some _ _ _ _ _ _ _ _ H1 H2 H3 H4).
  rewrite (computeWorkedMinutes_Some _ _ _ _ _ _ _ _ H1 H2 H1 H4).
  rewrite (computeWorkedMinutes_Some _ _ _ _ _ _ _ _ H1 H2 H3 H2).
  rewrite !workedMinutes_formula.
  split; [intros; f_equal; lia |]. split; [intros; f_equal; lia |]. split.
  - intros s4' ao' H4' Hle.
    rewrite (computeWorkedMinutes_Some _ _ _ _ _ _ _ _ H1 H2 H3 H4').
    rewrite workedMinutes_formula. eexists _, _. split; [reflexivity |].
    split; [reflexivity | lia].
  - intros s3' ai' H3' Hle.
    rewrite (computeWorkedMinutes_Some _ _ _ _ _ _ _ _ H1 H2 H3' H4).
    rewrite workedMinutes_formula. eexists _, _. split; [reflexivity |].
    split; [reflexivity | lia].
Qed.

Lemma computeWorkedMinutes_policy_witness :
  computeWorkedMinutes "09:00" "17:00" "08:40" "17:30"
  = computeWorkedMinutes "09:00" "17:00" "09:00" "17:30" /\
  computeWorkedMinutes "09:00" "17:00" "08:40" "17:30"
  = computeWorkedMinutes "09:00" "17:00" "08:40" "17:00".
Proof.
  destruct (computeWorkedMinutes_policy "09:00" "17:00" "08:40" "17:30"
              540 1020 520 1050 eq_refl eq_refl eq_refl eq_refl)
    as (Hearly & Hlate & _).
  split; [apply Hearly | apply Hlate]; lia.
Defined.

(** ** Punching in and out *)

Lemma getOwn_delete {V : Type} (o : JSObject.t V) (k k' : string) :
  JSObject.getOwn (JSObject.delete o k) k'
  = if decide (k' = k) then None else JSObject.getOwn o k'.
Proof.
  unfold JSObject.delete, JSObject.t in *. induction o as [| [k0 v0] o IH].
  - destruct (decide (k' = k)); reflexivity.
  - rewrite filter_cons. cbn [fst].
    destruct (decide (k0 ≠ k)) as [Hne | Heq]; cbn [JSObject.getOwn].
    + destruct (decide (k0 = k')) as [-> | Hne']; [| exact IH].
      destruct (decide (k' = k)); [contradiction | reflexivity].
    + assert (k0 = k) as -> by (destruct (decide (k0 = k)); [assumption | contradiction]).
      rewrite IH. destruct (decide (k' = k)) as [-> | Hne']; [reflexivity |].
      destruct (decide (k = k')); [congruence | reflexivity].
Qed.

Lemma delete_update {V : Type} (o : JSObject.t V) (k : string) (v : V) :
  JSObject.delete (JSObject.update o k v) k = JSObject.delete o k.
Proof.
  unfold JSObject.delete, JSObject.t in *.
  induction o as [| [k0 v0] o IH]; [reflexivity |].
  cbn [JSObject.update]. destruct (decide (k0 = k)) as [-> | Hne].
  - rewrite !filter_cons. cbn [fst].
    destruct (decide (k ≠ k)); [contradiction | reflexivity].
  - rewrite !filter_cons. cbn [fst]. rewrite IH. reflexivity.
Qed.

Lemma delete_set {V : Type} (o : JSObject.t V) (k : string) (v : V) :
  JSObject.delete (JSObject.set o k v) k = JSObject.delete o k.
Proof.
  unfold JSObject.set. destruct (JSObject.getOwn o k); [apply delete_update |].
  destruct (decide (k = "__proto__")); [reflexivity |].
  unfold JSObject.delete, JSObject.t in *.
  rewrite filter_app, filter_cons, filter_nil. cbn [fst].
  destruct (decide (k ≠ k)); [contradiction | apply app_nil_r].
Qed.

(** What punch-in writes, for the proofs below. *)
Lemma punchIn_open (LocalTZA : Z) (currentUser : Account.t) (now : Z) (st : Store) :
  Account.username currentUser <> "__proto__" \/
  is_Some (JSObject.getOwn (currentPunch st) (Account.username currentUser)) ->
  JSObject.getOwn (currentPunch (fst (punchIn LocalTZA currentUser now st)))
    (Account.username currentUser)
  = Some (PunchRecord.mk (isoDate now) (toTimeString5 LocalTZA now)) /\
  paySettings (fst (punchIn LocalTZA currentUser now st)) = paySettings st.
Proof.
  intros H. unfold punchIn. cbn [fst currentPunch paySettings].
  split; [| reflexivity]. rewrite getOwn_set by exact H.
  destruct (decide (Account.username currentUser = Account.username currentUser));
    [reflexivity | contradiction].
Qed.

(** X5.  Punch-in records the open punch of the user: afterwards the map holds,
    under the user's name, the UTC date and the local clock of [now],
    whatever it held before; the open punches of other names, the logs, the
    accounts and the settings are as they were; and the employee view finds
    the user punched in.  (For the name ["__proto__"], unless the stored
    map has it as an own property, the assignment creates no property.) *)
Theorem punchIn_records (LocalTZA : Z) (currentUser : Account.t) (now : Z)
    (st : Store) :
  Account.username currentUser <> "__proto__" \/
  is_Some (JSObject.getOwn (currentPunch st) (Account.username currentUser)) ->
  let st' := fst (punchIn LocalTZA currentUser now st) in
  JSObject.getOwn (currentPunch st') (Account.username currentUser)
  = Some (PunchRecord.mk (isoDate now) (toTimeString5 LocalTZA now)) /\
  (forall k, k <> Account.username currentUser ->
     JSObject.getOwn (currentPunch st') k = JSObject.getOwn (currentPunch st) k) /\
  accounts st' = accounts st /\ paySettings st' = paySettings st /\
  logs st' = logs st /\
  openPunchToday currentUser now st' = Some (toTimeString5 LocalTZA now).
Proof.
  intros H. cbv zeta. unfold punchIn. cbn [fst currentPunch accounts paySettings logs].
  assert (Hown : JSObject.getOwn
            (JSObject.set (currentPunch st) (Account.username currentUser)
               (PunchRecord.mk (isoDate now) (toTimeString5 LocalTZA now)))
            (Account.username currentUser)
          = Some (PunchRecord.mk (isoDate now) (toTimeString5 LocalTZA now))).
  { rewrite getOwn_set by exact H.
    destruct (decide (Account.username currentUser = Account.username currentUser));
      [reflexivity | contradiction]. }
  split; [exact Hown |]. split.
  { intros k Hk. rewrite getOwn_set by exact H.
    destruct (decide (k = Account.username currentUser)); [contradiction | reflexivity]. }
  repeat (split; [reflexivity |]).
  unfold openPunchToday, JSObject.get. cbn [currentPunch]. rewrite Hown.
  cbn [PunchRecord.date PunchRecord.punchIn].
  destruct (decide (isoDate now = isoDate now)); [reflexivity | contradiction].
Qed.

Lemma punchIn_records_witness :
  let st' := fst (punchIn 0 (Account.mk "bob" "b" employee (Some 12.5%float)
                                        (Some "22:00") (Some "06:00"))
                          (noonUTC 2024 3 22) exampleStore) in
  JSObject.getOwn (currentPunch st') "bob"
  = Some (PunchRecord.mk "2024-03-22" "12:00") /\
  JSObject.getOwn (currentPunch st') "alice"
  = Some (PunchRecord.mk "2024-03-21" "08:55").
Proof.
  destruct (punchIn_records 0 (Account.mk "bob" "b" employee (Some 12.5%float)
                                          (Some "22:00") (Some "06:00"))
              (noonUTC 2024 3 22) exampleStore) as (H1 & H2 & _).
  { left. discriminate. }
  cbv zeta. cbn [Account.username] in H1, H2.
  split; [rewrite H1; vm_compute; reflexivity |].
  rewrite (H2 "alice"); [reflexivity | discriminate].
Defined.

(** X7.  The employee view and the punch-out handler agree: the view shows the
    punch-out button exactly when it finds an open punch of today, and
    punch-out answers with the alert exactly when there is none. *)
Theorem loadEmployeeView_agrees_with_punchOut (LocalTZA : Z)
    (currentUser : Account.t) (now : Z) (st : Store) :
  (Page (Reveal "punch-out-button") ∈ loadEmployeeView currentUser now st
   <-> is_Some (openPunchToday currentUser now st)) /\
  (punchOut LocalTZA currentUser now st
   = Some (st, [Alert "No punch in record found for today."])
   <-> openPunchToday currentUser now st = None).
Proof.
  split.
  - unfold loadEmployeeView.
    destruct (openPunchToday currentUser now st) as [time |].
    + split; [eauto | intros _]. cbn [app]. do 7 right. left.
    + split; [| intros [? H]; discriminate H]. cbn [app]. intros H.
      repeat (apply elem_of_cons in H as [H | H]; [discriminate H |]). inversion H.
  - unfold punchOut, openPunchToday.
    destruct (JSObject.get (currentPunch st) (Account.username currentUser))
      as [r | |]; [| split; reflexivity | split; reflexivity].
    destruct (decide (PunchRecord.date r = isoDate now)) as [Heq | Hne].
    + destruct (decide (PunchRecord.date r ≠ isoDate now)); [contradiction |].
      split; [| discriminate]. intros H.
      destruct (computeWorkedMinutes _ _ _ _); [| discriminate H].
      cbn [mbind option_bind] in H.
      destruct (getPayPeriodStart _ _ _); [| discriminate H].
      cbn [mbind option_bind] in H.
      destruct (formatHours _); [| discriminate H].
      cbn [mbind option_bind] in H. discriminate H.
    + destruct (decide (PunchRecord.date r ≠ isoDate now)); [| contradiction].
      split; reflexivity.
Qed.


(** ** Accounts: adding, logging in, deleting *)

Lemma existsb_username_false (username : string) (accs : list Account.t) :
  existsb (fun acc => bool_decide (Account.username acc = username)) accs = false
  <-> username ∉ map Account.username accs.
Proof.
  induction accs as [| a accs IH]; cbn [existsb map].
  - split; [intros _; apply not_elem_of_nil | reflexivity].
  - rewrite orb_false_iff, IH, not_elem_of_cons, bool_decide_eq_false.
    split; intros [H1 H2]; split; congruence.
Qed.

(** What [addEmployee] does when it accepts the form. *)
Lemma addEmployee_accepted (usernameValue password : string) (rate : float)
    (shiftStart shiftEnd : string) (st : Store) :
  JS.trim usernameValue <> "" -> password <> "" ->
  shiftStart <> "" -> shiftEnd <> "" -> PrimFloat.is_nan rate = false ->
  JS.trim usernameValue ∉ map Account.username (accounts st) ->
  fst (addEmployee usernameValue password rate shiftStart shiftEnd st)
  = {| accounts := (accounts st ++
                    [Account.mk (JS.trim usernameValue) password employee (Some rate)
                                (Some shiftStart) (Some shiftEnd)])%list;
       paySettings := paySettings st; logs := logs st;
       currentPunch := currentPunch st |}.
Proof.
  intros Hu Hp Hs He Hr Hfresh. unfold addEmployee.
  rewrite !bool_decide_eq_false_2 by assumption. rewrite Hr. cbn [orb].
  apply existsb_username_false in Hfresh. rewrite Hfresh. reflexivity.
Qed.

(** X9.  Adding an employee keeps the usernames distinct: the handler never
    removes or changes an account, never touches the logs, the open punches
    or the settings, and appends the new account only when no account has
    its (trimmed, non-empty) username. *)
Theorem addEmployee_keeps_usernames_distinct (usernameValue password : string)
    (rate : float) (shiftStart shiftEnd : string) (st : Store) :
  NoDup (map Account.username (accounts st)) ->
  let st' := fst (addEmployee usernameValue password rate shiftStart shiftEnd st) in
  NoDup (map Account.username (accounts st')) /\
  (accounts st' = accounts st \/
   accounts st' = (accounts st ++
                   [Account.mk (JS.trim usernameValue) password employee (Some rate)
                               (Some shiftStart) (Some shiftEnd)])%list /\
   JS.trim usernameValue <> "" /\
   (JS.trim usernameValue ∉ map Account.username (accounts st))) /\
  paySettings st' = paySettings st /\ logs st' = logs st /\
  currentPunch st' = currentPunch st.
Proof.
  intros Hnd. cbv zeta. unfold addEmployee.
  destruct (bool_decide (JS.trim usernameValue = "") || _ || _ || _ || _) eqn:Hbad;
    [cbn [fst]; auto 6 |].
  destruct (existsb _ (accounts st)) eqn:Hex; [cbn [fst]; auto 6 |].
  cbn [fst accounts paySettings logs currentPunch].
  apply existsb_username_false in Hex.
  repeat (apply orb_false_iff in Hbad as [Hbad ?]).
  apply bool_decide_eq_false in Hbad.
  split; [| split; [right; auto | auto]].
  rewrite map_app. cbn [map Account.username]. apply NoDup_app.
  split; [exact Hnd |]. split; [| apply NoDup_singleton].
  intros x Hx Hx'. apply list_elem_of_singleton in Hx' as ->. contradiction.
Qed.

Lemma addEmployee_keeps_usernames_distinct_witness :
  let st' := fst (addEmployee " carol " "c" 11%float "08:00" "16:00" exampleStore) in
  NoDup (map Account.username (accounts st')) /\
  map Account.username (accounts st') = ["admin"; "alice"; "bob"; "carol"].
Proof.
  cbv zeta. split; [| reflexivity].
  apply (addEmployee_keeps_usernames_distinct " carol " "c" 11%float "08:00" "16:00"
           exampleStore).
  refine (bool_decide_unpack _ _); vm_compute; exact I.
Defined.

Lemma find_app_None {A : Type} (f : A -> bool) (l k : list A) :
  find f l = None -> find f (l ++ k) = find f k.
Proof.
  induction l as [| x l IH]; cbn [find app]; [reflexivity |].
  destruct (f x); [discriminate | exact IH].
Qed.

Lemma findAccount_other_username (username password : string) (role : Role)
    (accs : list Account.t) :
  username ∉ map Account.username accs ->
  findAccount username password role accs = None.
Proof.
  unfold findAccount. induction accs as [| a accs IH]; cbn [find map]; [reflexivity |].
  rewrite not_elem_of_cons. intros [Hne Hrest].
  rewrite (bool_decide_eq_false_2 (Account.username a = username)) by congruence.
  cbn [andb]. apply IH, Hrest.
Qed.

(** X10.  An employee the admin has just added can log in: with the same
    username text, the password given and the role employee, the login
    handler finds the new account and loads the employee view for it. *)
Theorem addEmployee_then_login (usernameValue password : string) (rate : float)
    (shiftStart shiftEnd : string) (now : Z) (st : Store) :
  JS.trim usernameValue <> "" -> password <> "" ->
  shiftStart <> "" -> shiftEnd <> "" -> PrimFloat.is_nan rate = false ->
  JS.trim usernameValue ∉ map Account.username (accounts st) ->
  let st' := fst (addEmployee usernameValue password rate shiftStart shiftEnd st) in
  let account := Account.mk (JS.trim usernameValue) password employee (Some rate)
                            (Some shiftStart) (Some shiftEnd) in
  findAccount (JS.trim usernameValue) password employee (accounts st') = Some account /\
  login usernameValue password employee now st'
  = (Page (SetText "login-error" "")
     :: loadEmployeeView account now st'
     ++ [SetValue "login-username" ""; SetValue "login-password" ""])%list.
Proof.
  intros Hu Hp Hs He Hr Hfresh. cbv zeta.
  rewrite (addEmployee_accepted _ _ _ _ _ _ Hu Hp Hs He Hr Hfresh).
  set (account := Account.mk _ _ _ _ _ _).
  set (st' := {| accounts := _ |}).
  assert (Hfind : findAccount (JS.trim usernameValue) password employee (accounts st')
                  = Some account).
  { subst st'. cbn [accounts]. unfold findAccount.
    rewrite find_app_None
      by (apply (findAccount_other_username _ password employee), Hfresh).
    cbn [find]. subst account. cbn [Account.username Account.password Account.role].
    rewrite !bool_decide_eq_true_2 by reflexivity. reflexivity. }
  split; [exact Hfind |]. unfold login. rewrite Hfind. reflexivity.
Qed.

Lemma addEmployee_then_login_witness :
  findAccount "carol" "c" employee
    (accounts (fst (addEmployee " carol " "c" 11%float "08:00" "16:00" exampleStore)))
  = Some (Account.mk "carol" "c" employee (Some 11%float) (Some "08:00") (Some "16:00")).
Proof.
  apply (addEmployee_then_login " carol " "c" 11%float "08:00" "16:00" 0 exampleStore);
    try discriminate; try reflexivity.
  refine (bool_decide_unpack _ _); vm_compute; exact I.
Defined.

Lemma sublist_map {A B : Type} (f : A -> B) (l k : list A) :
  l `sublist_of` k -> map f l `sublist_of` map f k.
Proof. induction 1; cbn [map]; constructor; assumption. Qed.

(** X11.  After an account is deleted, where usernames are distinct: the
    remaining accounts are the others, in order and still distinct, and no
    password or role logs the deleted username in. *)
Theorem deleteEmployee_accounts (confirm : string -> bool) (idx : nat)
    (st : Store) (user : Account.t) :
  NoDup (map Account.username (accounts st)) ->
  accounts st !! idx = Some user ->
  confirm ("Delete employee '" ++ Account.username user ++
           "'? This will remove all their logs.") = true ->
  let st' := fst (deleteEmployee confirm idx st) in
  (Account.username user ∉ map Account.username (accounts st')) /\
  (forall password role,
     findAccount (Account.username user) password role (accounts st') = None) /\
  NoDup (map Account.username (accounts st')) /\
  (accounts st' `sublist_of` accounts st) /\
  length (accounts st') = pred (length (accounts st)) /\
  paySettings st' = paySettings st.
Proof.
  intros Hnd Hu Hc. cbv zeta. rewrite (deleteEmployee_confirmed _ _ _ _ Hu Hc).
  cbn [accounts paySettings].
  assert (Hgone : Account.username user ∉ map Account.username (base.delete idx (accounts st))).
  { revert idx Hu Hnd. induction (accounts st) as [| a accs IH]; intros idx Hu Hnd.
    - discriminate Hu.
    - cbn [map] in Hnd. apply NoDup_cons in Hnd as [Ha Hnd].
      destruct idx as [| idx]; cbn in Hu |- *.
      + injection Hu as ->. exact Ha.
      + apply not_elem_of_cons. split; [| apply (IH idx Hu Hnd)].
        intros Heq. apply Ha. rewrite <- Heq.
        apply list_elem_of_In, in_map, list_elem_of_In, (list_elem_of_lookup_2 _ idx), Hu. }
  split; [exact Hgone |]. split.
  { intros password role. apply findAccount_other_username, Hgone. }
  split.
  { apply (sublist_NoDup _ (map Account.username (accounts st))); [exact Hnd |].
    apply sublist_map, sublist_delete. }
  split; [apply sublist_delete |]. split; [| reflexivity].
  rewrite length_delete by eauto. lia.
Qed.

Lemma deleteEmployee_accounts_witness :
  findAccount "alice" "a" employee
    (accounts (fst (deleteEmployee (fun _ => true) 1 exampleStore))) = None.
Proof.
  apply (deleteEmployee_accounts (fun _ => true) 1 exampleStore
           (Account.mk "alice" "a" employee (Some 10%float) (Some "09:00")
                       (Some "17:00"))); try reflexivity.
  refine (bool_decide_unpack _ _); vm_compute; exact I.
Defined.


(** X8.  What punch-out may change: when it returns, the accounts and the
    settings are as they were and so are the open punches of every other
    name; either nothing else changed, or one entry was appended to the
    logs, of the acting user, dated today, with minutes that are not
    negative, and the open punch of the user is gone.  No entry that was
    there is changed or removed. *)
Theorem punchOut_appends (LocalTZA : Z) (currentUser : Account.t) (now : Z)
    (st st' : Store) (effects : list Effect) :
  punchOut LocalTZA currentUser now st = Some (st', effects) ->
  accounts st' = accounts st /\ paySettings st' = paySettings st /\
  (forall k, k <> Account.username currentUser ->
     JSObject.getOwn (currentPunch st') k = JSObject.getOwn (currentPunch st) k) /\
  (st' = st \/
   exists entry,
     logs st' = (logs st ++ [entry])%list /\
     LogEntry.username entry = Account.username currentUser /\
     LogEntry.date entry = isoDate now /\
     0 <= LogEntry.minutesWorked entry /\
     JSObject.getOwn (currentPunch st') (Account.username currentUser) = None).
Proof.
  unfold punchOut. intros H.
  assert (Hrej : Some (st, [Alert "No punch in record found for today."])
                 = Some (st', effects) ->
                 accounts st' = accounts st /\ paySettings st' = paySettings st /\
                 (forall k, k <> Account.username currentUser ->
                    JSObject.getOwn (currentPunch st') k
                    = JSObject.getOwn (currentPunch st) k) /\
                 (st' = st \/ exists entry,
                    logs st' = (logs st ++ [entry])%list /\
                    LogEntry.username entry = Account.username currentUser /\
                    LogEntry.date entry = isoDate now /\
                    0 <= LogEntry.minutesWorked entry /\
                    JSObject.getOwn (currentPunch st') (Account.username currentUser)
                    = None)).
  { intros [= <- _]. auto. }
  destruct (JSObject.get _ _) as [r | |]; [| exact (Hrej H) | exact (Hrej H)].
  destruct (decide (PunchRecord.date r ≠ isoDate now)); [exact (Hrej H) |].
  clear Hrej. unfold computeWorkedMinutes in H.
  destruct (timeToMinutes (orString (Account.shiftStart currentUser) "09:00"))
    as [ss |]; [| discriminate H].
  destruct (timeToMinutes (orString (Account.shiftEnd currentUser) "17:00"))
    as [se |]; [| discriminate H].
  destruct (timeToMinutes (PunchRecord.punchIn r)) as [ai |]; [| discriminate H].
  destruct (timeToMinutes (toTimeString5 LocalTZA now)) as [ao |]; [| discriminate H].
  cbn [mbind option_bind] in H.
  destruct (getPayPeriodStart _ _ _) as [period |]; [| discriminate H].
  cbn [mbind option_bind] in H.
  destruct (formatHours _) as [hours |]; [| discriminate H].
  cbn [mbind option_bind] in H. injection H as <- _.
  cbn [accounts paySettings logs currentPunch].
  split; [reflexivity |]. split; [reflexivity |]. split.
  - intros k Hk. rewrite getOwn_delete.
    destruct (decide (k = Account.username currentUser)); [contradiction | reflexivity].
  - right. eexists. split; [reflexivity |].
    cbn [LogEntry.username LogEntry.date LogEntry.minutesWorked].
    split; [reflexivity |]. split; [reflexivity |]. split.
    + rewrite workedMinutes_formula. lia.
    + rewrite getOwn_delete.
      destruct (decide (Account.username currentUser = Account.username currentUser));
        [reflexivity | contradiction].
Qed.

Lemma punchOut_appends_witness :
  exists entry,
    (exampleLogs ++ [LogEntry.mk "alice" "2024-03-21" "08:55" "17:30" 480 "2024-03-15"])%list
    = (exampleLogs ++ [entry])%list /\
    LogEntry.username entry = "alice" /\ 0 <= LogEntry.minutesWorked entry.
Proof.
  destruct (punchOut_appends 0
              (Account.mk "alice" "a" employee (Some 10%float) (Some "09:00")
                          (Some "17:00"))
              (noonUTC 2024 3 21 + 330 * msPerMinute) exampleStore
              {| accounts := exampleAccounts; paySettings := PaySettings.mk [1; 15];
                 logs := exampleLogs ++
                   [LogEntry.mk "alice" "2024-03-21" "08:55" "17:30" 480 "2024-03-15"];
                 currentPunch := [] |}
              [Reveal "punch-in-button"; Conceal "punch-out-button";
               SetText "punch-message"
                 "You punched out at 17:30. Total worked: 8.00 hours."])
    as (_ & _ & _ & [Hsame | (entry & Hlogs & Huser & _ & Hmin & _)]).
  - vm_compute. reflexivity.
  - discriminate Hsame.
  - exists entry. cbn [logs Account.username] in Hlogs, Huser. auto.
Defined.

(** ** The summary after a deletion; pay periods after a save *)

Lemma generateSummary_row_hasEntry (logs : list LogEntry.t)
    (accounts : list Account.t) (rows : list Row.t) (row : Row.t) :
  (forall log, log ∈ logs ->
     JSObject.inPrototype (LogEntry.username log) = false /\
     JSObject.inPrototype (LogEntry.payPeriodStart log) = false) ->
  generateSummary logs accounts = Some rows -> row ∈ rows ->
  hasEntry logs (Row.period row) (Row.user row).
Proof.
  intros Hnames Hrows Hrow.
  destruct (buildSummaryMap_inv logs Hnames) as (sm & Hsm & Hinv).
  pose proof (generateSummary_rowOf logs accounts sm rows Hsm Hrows) as HF.
  destruct (Forall2_elem_r _ _ _ _ HF Hrow) as ([p u] & _ & (c & Hc & Hr)).
  cbn [fst snd] in Hc, Hr.
  destruct (summaryRow_key _ _ _ _ _ Hr) as ([= -> ->] & _).
  destruct Hinv as (_ & _ & Hcell & _). apply (Hcell _ _ _ Hc).
Qed.

(** X12.  A deleted employee is gone from the summary: after the deletion no row
    of [generateSummary] is of the deleted username (for log entries whose
    periods and users name no member of [Object.prototype]). *)
Theorem deleteEmployee_then_generateSummary (confirm : string -> bool) (idx : nat)
    (st : Store) (user : Account.t) (rows : list Row.t) :
  accounts st !! idx = Some user ->
  confirm ("Delete employee '" ++ Account.username user ++
           "'? This will remove all their logs.") = true ->
  (forall log, log ∈ logs st ->
     JSObject.inPrototype (LogEntry.username log) = false /\
     JSObject.inPrototype (LogEntry.payPeriodStart log) = false) ->
  let st' := fst (deleteEmployee confirm idx st) in
  generateSummary (logs st') (accounts st') = Some rows ->
  forall row, row ∈ rows -> Row.user row <> Account.username user.
Proof.
  intros Hu Hc Hnames. cbv zeta. rewrite (deleteEmployee_confirmed _ _ _ _ Hu Hc).
  cbn [logs accounts]. intros Hrows row Hrow.
  assert (Hnames' : forall log,
            log ∈ filter (fun log => LogEntry.username log ≠ Account.username user)
                         (logs st) ->
            JSObject.inPrototype (LogEntry.username log) = false /\
            JSObject.inPrototype (LogEntry.payPeriodStart log) = false).
  { intros log Hlog. apply list_elem_of_filter in Hlog as [_ Hlog]. apply Hnames, Hlog. }
  destruct (generateSummary_row_hasEntry _ _ _ _ Hnames' Hrows Hrow)
    as (log & Hlog & _ & Huser).
  apply list_elem_of_filter in Hlog as [Hne _]. rewrite <- Huser. exact Hne.
Qed.

Lemma deleteEmployee_then_generateSummary_witness :
  generateSummary (logs (fst (deleteEmployee (fun _ => true) 1 exampleStore)))
                  (accounts (fst (deleteEmployee (fun _ => true) 1 exampleStore)))
  = Some [Row.mk "2024-03-01" "bob" "8.00" "100.00"] /\
  forall row, row ∈ [Row.mk "2024-03-01" "bob" "8.00" "100.00"] ->
              Row.user row <> "alice".
Proof.
  assert (H : generateSummary
                (logs (fst (deleteEmployee (fun _ => true) 1 exampleStore)))
                (accounts (fst (deleteEmployee (fun _ => true) 1 exampleStore)))
              = Some [Row.mk "2024-03-01" "bob" "8.00" "100.00"])
    by (vm_compute; reflexivity).
  split; [exact H |].
  apply (deleteEmployee_then_generateSummary (fun _ => true) 1 exampleStore
           (Account.mk "alice" "a" employee (Some 10%float) (Some "09:00")
                       (Some "17:00")) _ eq_refl eq_refl); [| exact H].
  intros log Hlog. unfold exampleStore, exampleLogs in Hlog. cbn [logs] in Hlog.
  repeat (apply elem_of_cons in Hlog as [-> | Hlog]); [.. | inversion Hlog];
    split; reflexivity.
Defined.

Lemma largest_nonempty (l : list Z) : l <> [] -> is_Some (largest l).
Proof. destruct l; [contradiction | eauto]. Qed.

(** X13.  What the save handler stores is fit for [getPayPeriodStart]: after a
    save that is accepted, in a zone at or west of Greenwich and for a local
    year from 101 to 9999, the pay period start of every date is defined,
    and is the date the specification describes for the stored days. *)
Theorem savePayPeriod_then_getPayPeriodStart (LocalTZA : Z) (value : string)
    (st : Store) (dateObj : Z) :
  - msPerDay < LocalTZA <= 0 ->
  (exists tok d, tok ∈ JS.split "," (JS.trim value) /\
                 JSNumber.parseInt (JS.trim tok) = Some d /\ 1 <= d <= 31) ->
  100 < getFullYear LocalTZA dateObj <= 9999 ->
  let days := PaySettings.startDays (paySettings (fst (savePayPeriod value st))) in
  exists ymd,
    payPeriodStartSpec days (getFullYear LocalTZA dateObj)
      (getMonth LocalTZA dateObj) (getDate LocalTZA dateObj) = Some ymd /\
    getPayPeriodStart LocalTZA days dateObj = Some (isoYMD ymd).
Proof.
  intros Hzone (tok & d & Ht & Hp & Hr) Hyear. cbv zeta.
  assert (Hd : d ∈ parseDays (JS.trim value)).
  { apply parseDays_elem. split; [exact Hr | exists tok; split; assumption]. }
  assert (Hsaved : PaySettings.startDays (paySettings (fst (savePayPeriod value st)))
                   = sortNumeric (parseDays (JS.trim value))).
  { unfold savePayPeriod. destruct (parseDays (JS.trim value)); [inversion Hd | reflexivity]. }
  rewrite Hsaved.
  assert (Hne : sortNumeric (parseDays (JS.trim value)) <> []).
  { intros Hnil. pose proof (sortNumeric_perm (parseDays (JS.trim value))) as Hperm.
    rewrite Hnil in Hperm. symmetry in Hperm. apply Permutation_nil_r in Hperm.
    rewrite Hperm in Hd. inversion Hd. }
  assert (Hall : forall s, s ∈ sortNumeric (parseDays (JS.trim value)) -> 1 <= s <= 31).
  { intros s Hs. rewrite sortNumeric_perm in Hs. apply parseDays_elem in Hs as [Hs _].
    exact Hs. }
  rewrite (getPayPeriodStart_in_zone LocalTZA Hzone _ dateObj Hne Hall Hyear).
  unfold payPeriodStartSpec.
  destruct (largest (filter _ _)) as [c |]; [eexists; split; reflexivity |].
  destruct (largest_nonempty _ Hne) as [c ->]. eexists; split; reflexivity.
Qed.

Lemma savePayPeriod_then_getPayPeriodStart_witness :
  exists ymd,
    payPeriodStartSpec
      (PaySettings.startDays (paySettings (fst (savePayPeriod "31, 10" exampleStore))))
      (getFullYear 0 (noonUTC 2024 3 5)) (getMonth 0 (noonUTC 2024 3 5))
      (getDate 0 (noonUTC 2024 3 5)) = Some ymd /\
    getPayPeriodStart 0
      (PaySettings.startDays (paySettings (fst (savePayPeriod "31, 10" exampleStore))))
      (noonUTC 2024 3 5) = Some (isoYMD ymd).
Proof.
  apply (savePayPeriod_then_getPayPeriodStart 0 "31, 10" exampleStore (noonUTC 2024 3 5)).
  - unfold msPerDay. lia.
  - exists "31", 31. split; [left | split; [reflexivity | lia]].
  - vm_compute. split; [reflexivity | discriminate].
Defined.

Example savePayPeriod_then_getPayPeriodStart_value :
  getPayPeriodStart 0
    (PaySettings.startDays (paySettings (fst (savePayPeriod "31, 10" exampleStore))))
    (noonUTC 2024 3 5) = Some "2024-02-29".
Proof. vm_compute. reflexivity. Qed.

(** ** The store and its defaults *)

Lemma Storage_get_ext {Value : Type} (parseText : string -> option Value)
    (ls ls' : gmap string string) (key : string) (d : Value) :
  ls !! key = ls' !! key ->
  Storage.get parseText ls key d = Storage.get parseText ls' key d.
Proof. intros H. unfold Storage.get. rewrite H. reflexivity. Qed.

Lemma Storage_get_written (parseText : string -> option Json)
    (stringify : Json -> string) (ls : gmap string string) (key : string)
    (v d : Json) :
  parseText (stringify v) = Some v -> stringify v <> "" ->
  Storage.get parseText (Storage_set stringify ls key v) key d = (v, []).
Proof.
  intros Hp Hne. unfold Storage.get, Storage_set, Storage.JSON_parse.
  rewrite lookup_insert_eq.
  destruct (decide (stringify v = "")); [contradiction |]. rewrite Hp. reflexivity.
Qed.

(** X14.  Reading back what was written: when [JSON.parse] undoes
    [JSON.stringify] on a value, [Storage.get] after [Storage.set] under the
    same key returns the value, with no warning, whatever the default; and
    reading any other key is not affected by the write. *)
Theorem Storage_get_set (parseText : string -> option Json)
    (stringify : Json -> string) (ls : gmap string string) (key : string)
    (v d : Json) :
  parseText (stringify v) = Some v -> stringify v <> "" ->
  Storage.get parseText (Storage_set stringify ls key v) key d = (v, []) /\
  (forall key', key' <> key ->
     Storage.get parseText (Storage_set stringify ls key v) key' d
     = Storage.get parseText ls key' d).
Proof.
  intros Hp Hne. split; [apply Storage_get_written; assumption |].
  intros key' Hk. apply Storage_get_ext. unfold Storage_set.
  apply lookup_insert_ne. congruence.
Qed.

Lemma Storage_get_set_witness :
  Storage.get exampleParse
    (Storage_set exampleStringify {[ "logs" := "[1," ]} "logs" (JsonArray []))
    "logs" JsonNull
  = (JsonArray [], []).
Proof.
  apply (Storage_get_set exampleParse exampleStringify {[ "logs" := "[1," ]} "logs"
           (JsonArray []) JsonNull); [reflexivity | discriminate].
Defined.

Section InitDefaults.
Variable parseText : string -> option Json.
Variable stringify : Json -> string.

Lemma initDocument_other (key key' : string) (v : Json) (ls : gmap string string) :
  key' <> key -> initDocument parseText stringify key v ls !! key' = ls !! key'.
Proof.
  intros H. unfold initDocument, Storage_set.
  destruct (jsonTruthy _); [reflexivity |]. apply lookup_insert_ne. congruence.
Qed.

Lemma initDocument_present (key : string) (v : Json) (ls : gmap string string) :
  jsonTruthy (fst (Storage.get parseText ls key JsonNull)) = true ->
  initDocument parseText stringify key v ls = ls.
Proof. intros H. unfold initDocument. rewrite H. reflexivity. Qed.

Lemma initDocument_truthy (key : string) (v : Json) (ls : gmap string string) :
  parseText (stringify v) = Some v -> stringify v <> "" -> jsonTruthy v = true ->
  jsonTruthy (fst (Storage.get parseText
                     (initDocument parseText stringify key v ls) key JsonNull)) = true.
Proof.
  intros Hp Hne Hv. unfold initDocument.
  destruct (jsonTruthy (fst (Storage.get parseText ls key JsonNull))) eqn:Ht;
    [exact Ht |].
  rewrite Storage_get_written by assumption. exact Hv.
Qed.

Hypothesis codec :
  forall v, v ∈ [defaultAccounts; defaultPaySettings; JsonArray []; JsonObject []] ->
            parseText (stringify v) = Some v /\ stringify v <> "".

Lemma initDefaults_truthy (ls : gmap string string) (key : string) :
  key ∈ ["accounts"; "paySettings"; "logs"; "currentPunch"] ->
  jsonTruthy (fst (Storage.get parseText (initDefaults parseText stringify ls)
                     key JsonNull)) = true.
Proof.
  intros Hkey. unfold initDefaults.
  destruct (codec defaultAccounts) as [Pa Na]; [repeat constructor |].
  destruct (codec defaultPaySettings) as [Pp Np]; [repeat constructor |].
  destruct (codec (JsonArray [])) as [Pl Nl]; [repeat constructor |].
  destruct (codec (JsonObject [])) as [Pc Nc]; [repeat constructor |].
  repeat (apply elem_of_cons in Hkey as [-> | Hkey]); [.. | inversion Hkey].
  - rewrite (Storage_get_ext parseText _
               (initDocument parseText stringify "accounts" defaultAccounts ls))
      by (rewrite !initDocument_other by discriminate; reflexivity).
    apply initDocument_truthy; auto.
  - rewrite (Storage_get_ext parseText _
               (initDocument parseText stringify "paySettings" defaultPaySettings
                  (initDocument parseText stringify "accounts" defaultAccounts ls)))
      by (rewrite !initDocument_other by discriminate; reflexivity).
    apply initDocument_truthy; auto.
  - rewrite (Storage_get_ext parseText _
               (initDocument parseText stringify "logs" (JsonArray [])
                  (initDocument parseText stringify "paySettings" defaultPaySettings
                     (initDocument parseText stringify "accounts" defaultAccounts ls))))
      by (rewrite !initDocument_other by discriminate; reflexivity).
    apply initDocument_truthy; auto.
  - apply initDocument_truthy; auto.
Qed.

Lemma initDefaults_fixed (ls : gmap string string) :
  (forall key, key ∈ ["accounts"; "paySettings"; "logs"; "currentPunch"] ->
     jsonTruthy (fst (Storage.get parseText ls key JsonNull)) = true) ->
  initDefaults parseText stringify ls = ls.
Proof.
  intros H. unfold initDefaults.
  rewrite (initDocument_present "accounts") by (apply H; repeat constructor).
  rewrite (initDocument_present "paySettings") by (apply H; repeat constructor).
  rewrite (initDocument_present "logs") by (apply H; repeat constructor).
  apply initDocument_present, H. repeat constructor.
Qed.

Lemma initDefaults_keeps (ls : gmap string string) (key : string) :
  jsonTruthy (fst (Storage.get parseText ls key JsonNull)) = true \/
  key ∉ ["accounts"; "paySettings"; "logs"; "currentPunch"] ->
  initDefaults parseText stringify ls !! key = ls !! key.
Proof.
  intros H. unfold initDefaults.
  assert (Hstep : forall k v ls0,
            ls0 !! key = ls !! key ->
            k ∈ ["accounts"; "paySettings"; "logs"; "currentPunch"] ->
            initDocument parseText stringify k v ls0 !! key = ls !! key).
  { intros k v ls0 H0 Hk. destruct (decide (key = k)) as [-> | Hne].
    - destruct H as [Ht | Hout]; [| contradiction].
      rewrite initDocument_present; [exact H0 |].
      rewrite (Storage_get_ext parseText ls0 ls) by exact H0. exact Ht.
    - rewrite initDocument_other by exact Hne. exact H0. }
  apply Hstep; [| repeat constructor]. apply Hstep; [| repeat constructor].
  apply Hstep; [| repeat constructor]. apply Hstep; [reflexivity | repeat constructor].
Qed.
End InitDefaults.

(** X15.  [initDefaults], when [JSON.parse] undoes [JSON.stringify] on the four
    default documents: afterwards each of the four keys decodes to a value
    that is not false; a key whose document was not false before, and every
    key other than the four, keeps its text; and running [initDefaults]
    again changes nothing. *)
Theorem initDefaults_establishes (parseText : string -> option Json)
    (stringify : Json -> string) (ls : gmap string string) :
  (forall v, v ∈ [defaultAccounts; defaultPaySettings; JsonArray []; JsonObject []] ->
             parseText (stringify v) = Some v /\ stringify v <> "") ->
  let ls' := initDefaults parseText stringify ls in
  (forall key, key ∈ ["accounts"; "paySettings"; "logs"; "currentPunch"] ->
     jsonTruthy (fst (Storage.get parseText ls' key JsonNull)) = true) /\
  (forall key,
     jsonTruthy (fst (Storage.get parseText ls key JsonNull)) = true \/
     key ∉ ["accounts"; "paySettings"; "logs"; "currentPunch"] ->
     ls' !! key = ls !! key) /\
  initDefaults parseText stringify ls' = ls'.
Proof.
  intros codec. cbv zeta. split; [| split].
  - intros key Hkey. apply initDefaults_truthy; assumption.
  - intros key Hkey. apply initDefaults_keeps, Hkey.
  - apply initDefaults_fixed. intros key Hkey. apply initDefaults_truthy; assumption.
Qed.

Lemma initDefaults_establishes_witness :
  initDefaults exampleParse exampleStringify
    (initDefaults exampleParse exampleStringify {[ "logs" := "[1," ]})
  = initDefaults exampleParse exampleStringify {[ "logs" := "[1," ]}.
Proof.
  apply (initDefaults_establishes exampleParse exampleStringify {[ "logs" := "[1," ]}).
  intros v Hv. repeat (apply elem_of_cons in Hv as [-> | Hv]); [.. | inversion Hv];
    split; (reflexivity || discriminate).
Defined.

(** ** The employee table and the export *)

Lemma elem_of_imap_pair {A : Type} (l : list A) (i : nat) (x : A) :
  (i, x) ∈ imap pair l <-> l !! i = Some x.
Proof.
  rewrite list_elem_of_lookup. split.
  - intros (j & Hj). rewrite list_lookup_imap in Hj.
    destruct (l !! j) as [y |] eqn:Hy; [| discriminate Hj].
    cbn in Hj. injection Hj as <- <-. exact Hy.
  - intros H. exists i. rewrite list_lookup_imap, H. reflexivity.
Qed.

(** X16.  The table offers to delete employees only: every delete button carries
    the index of an account of role employee, and every such account has
    its button; deleting through a button leaves all admin accounts in
    place. *)
Theorem employeeRows_delete_employees_only (confirm : string -> bool)
    (st : Store) (idx : nat) (user : Account.t) :
  (idx, user) ∈ employeeRows (accounts st) ->
  accounts st !! idx = Some user /\ Account.role user = employee /\
  filter (fun acc => Account.role acc = admin)
         (accounts (fst (deleteEmployee confirm idx st)))
  = filter (fun acc => Account.role acc = admin) (accounts st).
Proof.
  unfold employeeRows. intros H. apply list_elem_of_filter in H as [Hrole H].
  cbn [snd] in Hrole. apply elem_of_imap_pair in H.
  split; [exact H |]. split; [exact Hrole |].
  unfold deleteEmployee. rewrite H. destruct (confirm _); [| reflexivity].
  cbn [fst accounts]. clear confirm.
  revert idx H. induction (accounts st) as [| a accs IH]; intros idx H;
    [discriminate H |].
  destruct idx as [| idx]; cbn in H.
  - injection H as ->. change (base.delete 0%nat (user :: accs)) with accs.
    rewrite filter_cons.
    destruct (decide (Account.role user = admin)); [congruence | reflexivity].
  - change (base.delete (S idx) (a :: accs)) with (a :: base.delete idx accs).
    rewrite !filter_cons, (IH idx H). reflexivity.
Qed.

Lemma employeeRows_delete_employees_only_witness :
  accounts exampleStore !! 2%nat
  = Some (Account.mk "bob" "b" employee (Some 12.5%float) (Some "22:00") (Some "06:00")) /\
  filter (fun acc => Account.role acc = admin)
         (accounts (fst (deleteEmployee (fun _ => true) 2 exampleStore)))
  = [Account.mk "admin" "admin" admin None None None].
Proof.
  destruct (employeeRows_delete_employees_only (fun _ => true) exampleStore 2
              (Account.mk "bob" "b" employee (Some 12.5%float) (Some "22:00")
                          (Some "06:00"))) as (H1 & _ & H3).
  - unfold employeeRows, exampleStore, exampleAccounts. cbn. do 1 right. left.
  - split; [exact H1 | rewrite H3; reflexivity].
Defined.

Lemma generateSummary_has_row (logs : list LogEntry.t) (accounts : list Account.t)
    (rows : list Row.t) (p u : string) :
  (forall log, log ∈ logs ->
     JSObject.inPrototype (LogEntry.username log) = false /\
     JSObject.inPrototype (LogEntry.payPeriodStart log) = false) ->
  generateSummary logs accounts = Some rows -> hasEntry logs p u ->
  exists row, row ∈ rows /\ rowKey row = (p, u).
Proof.
  intros Hnames Hrows He.
  destruct (buildSummaryMap_inv logs Hnames) as (sm & Hsm & Hinv).
  pose proof (generateSummary_rowOf logs accounts sm rows Hsm Hrows) as HF.
  apply (summaryPairs_elem logs sm Hinv) in He.
  destruct (Forall2_elem_l _ _ _ _ HF He) as (row & Hrow & (c & _ & Hr)).
  exists row. split; [exact Hrow | apply (summaryRow_key _ _ _ _ _ Hr)].
Qed.

(** X17.  The export is refused exactly when there is no log entry: with none,
    [exportSummary] ends in the alert and no file; with one or more (whose
    periods and users name no member of [Object.prototype]) it does not. *)
Theorem exportSummary_alert_iff_no_logs (logs : list LogEntry.t)
    (accounts : list Account.t) :
  (forall log, log ∈ logs ->
     JSObject.inPrototype (LogEntry.username log) = false /\
     JSObject.inPrototype (LogEntry.payPeriodStart log) = false) ->
  exportSummary logs accounts = Some (ExportAlert "No summary data to export.")
  <-> logs = [].
Proof.
  intros Hnames. split.
  - unfold exportSummary. intros H.
    destruct (generateSummary logs accounts) as [rows |] eqn:Hrows; [| discriminate H].
    cbn [mbind option_bind] in H. destruct rows as [| r rows]; [| discriminate H].
    destruct logs as [| log logs]; [reflexivity |]. exfalso.
    destruct (generateSummary_has_row _ _ _ (LogEntry.payPeriodStart log)
                (LogEntry.username log) Hnames Hrows) as (row & Hrow & _).
    + exists log. split; [left | auto].
    + inversion Hrow.
  - intros ->. reflexivity.
Qed.

Lemma exportSummary_alert_iff_no_logs_witness :
  exportSummary exampleLogs exampleAccounts
  = Some (ExportAlert "No summary data to export.")
  <-> exampleLogs = [].
Proof.
  apply (exportSummary_alert_iff_no_logs exampleLogs exampleAccounts).
  intros log Hlog. unfold exampleLogs in Hlog.
  repeat (apply elem_of_cons in Hlog as [-> | Hlog]); [.. | inversion Hlog];
    split; reflexivity.
Defined.

Example exportSummary_example :
  exportSummary exampleLogs exampleAccounts
  = Some (Download "timekeeper_summary.csv"
            ("Pay Period Start,Employee,Total Hours,Total Pay" ++ LF ++
             "2024-03-01,alice,7.83,78.33" ++ LF ++
             "2024-03-01,bob,8.00,100.00" ++ LF ++
             "2024-03-15,alice,7.00,70.00" ++ LF)).
Proof. vm_compute. reflexivity. Qed.
